(** * WonderJournal: the moment model, the auth middleware and the API client

  A shallow embedding of

  - [backend/models/moment.js]    (class [Moment]),
  - [backend/middleware/auth.js]  ([authenticateJWT], [ensureLoggedIn],
                                   [ensureCorrectUser]),
  - [wonder-journal/src/api.js]   ([request]),

  together with a model of what these files talk to: the PostgreSQL
  tables behind [db.query], [jwt.verify] and [axios].

  Layout: the JavaScript run-time notions the code relies on, the
  database, the three source files, and then the properties. *)

From Stdlib Require Import List String Ascii ZArith Bool Arith Lia.
From Stdlib Require Import Sorting.Sorted Sorting.Permutation.
From Stdlib Require Import Numbers.DecimalString.
Import ListNotations.

Open Scope list_scope.
Open Scope string_scope.

(* ===================================================================== *)
(** ** JavaScript run-time notions *)
(* ===================================================================== *)

Module Js.

(** Errors that can travel through a rejected promise or [next(err)].
    [DbError] stands for whatever the database driver rejects with. *)
Inductive exn :=
| NotFoundError (message : string)
| UnauthorizedError
| TypeError (message : string)
| ReferenceError (message : string)
| DbError (message : string).

(** The completion of a function call: a value or a thrown error. *)
Inductive outcome (A : Type) :=
| Return (a : A)
| Throw (e : exn).
Arguments Return {A} a.
Arguments Throw {A} e.

Definition is_not_found {A} (o : outcome A) : bool :=
  match o with
  | Throw (NotFoundError _) => true
  | _ => false
  end.

Definition returns {A} (o : outcome A) : bool :=
  match o with
  | Return _ => true
  | Throw _ => false
  end.

(** A string is truthy unless it is empty. *)
Definition truthy (s : string) : bool :=
  match s with
  | EmptyString => false
  | String _ _ => true
  end.

(** An optional string ([undefined] or a string) in a boolean context. *)
Definition truthy_opt (o : option string) : bool :=
  match o with
  | Some s => truthy s
  | None => false
  end.

(** [a === b] on optional strings. *)
Definition strict_eq (a b : option string) : bool :=
  match a, b with
  | Some x, Some y => String.eqb x y
  | None, None => true
  | _, _ => false
  end.

(** Template-literal rendering of a non-negative number such as
    [queryValues.length], and of an integer id. *)
Definition show_nat (n : nat) : string :=
  NilEmpty.string_of_uint (Nat.to_uint n).

Definition show_Z (z : Z) : string :=
  NilEmpty.string_of_int (Z.to_int z).

(** [xs.join(sep)] *)
Fixpoint join (sep : string) (xs : list string) : string :=
  match xs with
  | [] => ""
  | [x] => x
  | x :: rest => x ++ sep ++ join sep rest
  end.

(** White space removed by [String.prototype.trim], within ASCII:
    TAB, LF, VT, FF, CR and SPACE. *)
Definition is_space (c : ascii) : bool :=
  let n := nat_of_ascii c in
  ((9 <=? n)%nat && (n <=? 13)%nat) || (n =? 32)%nat.

Fixpoint trim_start (s : string) : string :=
  match s with
  | EmptyString => EmptyString
  | String c r => if is_space c then trim_start r else s
  end.

(** Removes trailing white space: a character is dropped when it is a
    space and everything after it has been dropped. *)
Fixpoint trim_end (s : string) : string :=
  match s with
  | EmptyString => EmptyString
  | String c r =>
      match trim_end r with
      | EmptyString => if is_space c then EmptyString else String c EmptyString
      | r' => String c r'
      end
  end.

Definition trim (s : string) : string := trim_end (trim_start s).

(** [s.startsWith(p)], returning what follows the prefix. *)
Fixpoint strip_prefix (p s : string) : option string :=
  match p, s with
  | EmptyString, _ => Some s
  | String a p', String b s' =>
      if Ascii.eqb a b then strip_prefix p' s' else None
  | String _ _, EmptyString => None
  end.

End Js.

Import Js.

(* ===================================================================== *)
(** ** The database *)
(* ===================================================================== *)

Module Pg.

(** *** Values bound to the placeholders [$1], [$2], ... *)
Inductive value :=
| VStr (s : string)
| VInt (n : Z)
| VDate (d : Z).

(** [$k] is the k-th element of the parameter array, counting from 1. *)
Definition param (vals : list value) (k : nat) : option value :=
  match k with
  | O => None
  | S i => nth_error vals i
  end.

(** *** Rows.  Dates are day numbers; only their order matters here. *)
Record moment_row := {
  m_id : Z;
  m_title : string;
  m_text : string;
  m_date : Z;
  m_username : string
}.

Record media_row := {
  md_id : Z;
  md_type : string;
  md_url : string;
  md_moment_id : Z
}.

Record tag_row := { t_id : Z; t_name : string }.

Record moment_tag_row := { mt_moment_id : Z; mt_tag_id : Z }.

(** The [id] columns are of type integer, which holds 32 bits: a value
    outside that range cannot be stored in them, and binding one to a
    condition on such a column is an error of the statement. *)
Definition int4 (z : Z) : bool :=
  (-2147483648 <=? z)%Z && (z <=? 2147483647)%Z.

(** Of [users] only the [username] column is read by the moment model.
    The tables keyed by an [id] are kept as lists of entries. *)
Record database := {
  users : list string;
  moments_entries : list moment_row;
  moment_media_entries : list media_row;
  tags_entries : list tag_row;
  moments_tags : list moment_tag_row
}.

(** The rows of the tables keyed by an [id]: an entry whose [id] is not a
    value of the column is not a row. *)
Definition moments (db : database) : list moment_row :=
  filter (fun m => int4 (m_id m)) (moments_entries db).

Definition moment_media (db : database) : list media_row :=
  filter (fun r => int4 (md_id r)) (moment_media_entries db).

Definition tags (db : database) : list tag_row :=
  filter (fun t => int4 (t_id t)) (tags_entries db).

(** *** LIKE and ILIKE *)

Definition to_lower (c : ascii) : ascii :=
  let n := nat_of_ascii c in
  if ((65 <=? n)%nat && (n <=? 90)%nat)%bool then ascii_of_nat (n + 32) else c.

Fixpoint lower (s : string) : string :=
  match s with
  | EmptyString => EmptyString
  | String c r => String (to_lower c) (lower r)
  end.

Inductive ptok :=
| PAny                (* %  : any run of characters *)
| POne                (* _  : exactly one character *)
| PLit (c : ascii).   (* a literal character, possibly escaped by \ *)

Definition is_percent (c : ascii) : bool := Ascii.eqb c "%".
Definition is_underscore (c : ascii) : bool := Ascii.eqb c "_".
Definition is_backslash (c : ascii) : bool := Ascii.eqb c "\".

(** A pattern that ends in an unescaped backslash is rejected. *)
Fixpoint like_tokens (p : string) : option (list ptok) :=
  match p with
  | EmptyString => Some []
  | String c r =>
      if is_backslash c then
        match r with
        | EmptyString => None
        | String d r' => option_map (cons (PLit d)) (like_tokens r')
        end
      else if is_percent c then option_map (cons PAny) (like_tokens r)
      else if is_underscore c then option_map (cons POne) (like_tokens r)
      else option_map (cons (PLit c)) (like_tokens r)
  end.

Fixpoint like_match (ts : list ptok) (s : string) {struct ts} : bool :=
  match ts with
  | [] => match s with EmptyString => true | _ => false end
  | PAny :: ts' =>
      (fix skip (s : string) : bool :=
         like_match ts' s
         || match s with
            | EmptyString => false
            | String _ s' => skip s'
            end) s
  | POne :: ts' =>
      match s with
      | EmptyString => false
      | String _ s' => like_match ts' s'
      end
  | PLit c :: ts' =>
      match s with
      | EmptyString => false
      | String d s' => Ascii.eqb c d && like_match ts' s'
      end
  end.

Definition like (s pat : string) : option bool :=
  option_map (fun ts => like_match ts s) (like_tokens pat).

(** [s ILIKE pat]: LIKE after folding both sides to lower case (the
    letters A to Z; other characters are left as they are). *)
Definition ilike (s pat : string) : option bool :=
  like (lower s) (lower pat).

(** *** The filtered search statement

    [Moment.findAll] assembles its statement as text.  The engine reads
    that text back: it is split at white space, the fixed head (select
    list and joins) is recognised, and what follows is read as
    [WHERE c1 AND c2 ...], [GROUP BY m.id], an optional [HAVING] on the
    aggregated tag names, and [ORDER BY m.date DESC]. *)

Fixpoint split_ws (s : string) : list string :=
  match s with
  | EmptyString => [EmptyString]
  | String c r =>
      if Js.is_space c then EmptyString :: split_ws r
      else match split_ws r with
           | w :: ws => String c w :: ws
           | [] => [String c EmptyString]
           end
  end.

Definition words (s : string) : list string :=
  filter (fun w => negb (String.eqb w "")) (split_ws s).

Definition digit (c : ascii) : option nat :=
  let n := nat_of_ascii c in
  if ((48 <=? n)%nat && (n <=? 57)%nat)%bool then Some (n - 48) else None.

Fixpoint digits (s : string) (acc : nat) : option nat :=
  match s with
  | EmptyString => Some acc
  | String c r =>
      match digit c with
      | Some d => digits r (10 * acc + d)
      | None => None
      end
  end.

(** A placeholder token: [$] followed by at least one digit. *)
Definition placeholder (w : string) : option nat :=
  match w with
  | String c (String d r) =>
      if Ascii.eqb c "$" then digits (String d r) 0 else None
  | _ => None
  end.

Inductive wexpr :=
| WUsername (k : nat)   (* m.username = $k *)
| WTitle (k : nat)      (* m.title ILIKE $k *)
| WText (k : nat)       (* m.text ILIKE $k *)
| WDateGe (k : nat)     (* m.date >= $k *)
| WDateLe (k : nat).    (* m.date <= $k *)

Record moments_query := {
  q_where : list wexpr;
  q_having : option nat   (* $k = ANY (array_agg(t.name)) *)
}.

Definition clause (col op ph : string) : option wexpr :=
  match placeholder ph with
  | None => None
  | Some k =>
      if String.eqb col "m.username" && String.eqb op "=" then Some (WUsername k)
      else if String.eqb col "m.title" && String.eqb op "ILIKE" then Some (WTitle k)
      else if String.eqb col "m.text" && String.eqb op "ILIKE" then Some (WText k)
      else if String.eqb col "m.date" && String.eqb op ">=" then Some (WDateGe k)
      else if String.eqb col "m.date" && String.eqb op "<=" then Some (WDateLe k)
      else None
  end.

(** [c1 AND c2 AND ...], returning the tokens that follow. *)
Fixpoint conjunction (ts : list string) : option (list wexpr * list string) :=
  match ts with
  | col :: op :: ph :: rest =>
      match clause col op ph with
      | None => None
      | Some w =>
          match rest with
          | kw :: rest' =>
              if String.eqb kw "AND" then
                match conjunction rest' with
                | Some (ws, r) => Some (w :: ws, r)
                | None => None
                end
              else Some ([w], rest)
          | [] => Some ([w], [])
          end
      end
  | _ => None
  end.

(** Removes the expected key words from the front of the token list. *)
Fixpoint expect (kws ts : list string) : option (list string) :=
  match kws, ts with
  | [], _ => Some ts
  | k :: kws', t :: ts' => if String.eqb k t then expect kws' ts' else None
  | _ :: _, [] => None
  end.

Definition select_moments_head : list string :=
  words ("SELECT m.id, m.title, m.text, m.date, "
         ++ "COALESCE(json_agg(json_build_object('id', t.id, 'name', t.name)) "
         ++ "FILTER (WHERE t.name IS NOT NULL), '[]') AS tags "
         ++ "FROM moments m "
         ++ "LEFT JOIN moments_tags mt ON mt.moment_id = m.id "
         ++ "LEFT JOIN tags t ON t.id = mt.tag_id").

Definition opt_where (ts : list string) : option (list wexpr * list string) :=
  match ts with
  | kw :: r => if String.eqb kw "WHERE" then conjunction r else Some ([], ts)
  | [] => Some ([], ts)
  end.

Definition opt_having (ts : list string) : option (option nat * list string) :=
  match ts with
  | kw :: ph :: r =>
      if String.eqb kw "HAVING" then
        match placeholder ph, expect ["="; "ANY"; "(array_agg(t.name))"] r with
        | Some k, Some r' => Some (Some k, r')
        | _, _ => None
        end
      else Some (None, ts)
  | _ => Some (None, ts)
  end.

Definition parse_select_moments (q : string) : option moments_query :=
  match expect select_moments_head (words q) with
  | None => None
  | Some ts0 =>
      match opt_where ts0 with
      | None => None
      | Some (ws, ts1) =>
          match expect ["GROUP"; "BY"; "m.id"] ts1 with
          | None => None
          | Some ts2 =>
              match opt_having ts2 with
              | None => None
              | Some (h, ts3) =>
                  match expect ["ORDER"; "BY"; "m.date"; "DESC"] ts3 with
                  | Some [] => Some {| q_where := ws; q_having := h |}
                  | _ => None
                  end
              end
          end
      end
  end.

Definition wexpr_placeholder (w : wexpr) : nat :=
  match w with
  | WUsername k | WTitle k | WText k | WDateGe k | WDateLe k => k
  end.

Definition query_placeholders (q : moments_query) : list nat :=
  (map wexpr_placeholder (q_where q)
   ++ match q_having q with Some k => [k] | None => [] end)%list.

(** Binding: the statement must use exactly the parameters [$1..$n]
    when [n] values are supplied. *)
Definition bound_ok (phs : list nat) (n : nat) : bool :=
  forallb (fun k => (1 <=? k)%nat && (k <=? n)%nat) phs
  && forallb (fun i => existsb (Nat.eqb i) phs) (seq 1 n).

(** A [WHERE] condition with its parameter bound. *)
Inductive cond :=
| CUsername (s : string)
| CTitle (pat : string)
| CText (pat : string)
| CDateGe (d : Z)
| CDateLe (d : Z).

Definition bind_wexpr (vals : list value) (w : wexpr) : option cond :=
  match w with
  | WUsername k =>
      match param vals k with Some (VStr s) => Some (CUsername s) | _ => None end
  | WTitle k =>
      match param vals k with Some (VStr s) => Some (CTitle s) | _ => None end
  | WText k =>
      match param vals k with Some (VStr s) => Some (CText s) | _ => None end
  | WDateGe k =>
      match param vals k with Some (VDate d) => Some (CDateGe d) | _ => None end
  | WDateLe k =>
      match param vals k with Some (VDate d) => Some (CDateLe d) | _ => None end
  end.

Fixpoint bind_where (vals : list value) (ws : list wexpr) : option (list cond) :=
  match ws with
  | [] => Some []
  | w :: ws' =>
      match bind_wexpr vals w, bind_where vals ws' with
      | Some c, Some cs => Some (c :: cs)
      | _, _ => None
      end
  end.

Definition bind_having (vals : list value) (h : option nat) : option (option string) :=
  match h with
  | None => Some None
  | Some k =>
      match param vals k with Some (VStr s) => Some (Some s) | _ => None end
  end.

(** [None] is a run-time error of the condition (a malformed pattern). *)
Definition eval_cond (m : moment_row) (c : cond) : option bool :=
  match c with
  | CUsername s => Some (String.eqb (m_username m) s)
  | CTitle pat => ilike (m_title m) pat
  | CText pat => ilike (m_text m) pat
  | CDateGe d => Some (d <=? m_date m)%Z
  | CDateLe d => Some (m_date m <=? d)%Z
  end.

Fixpoint eval_where (m : moment_row) (cs : list cond) : option bool :=
  match cs with
  | [] => Some true
  | c :: cs' =>
      match eval_cond m c, eval_where m cs' with
      | Some b, Some b' => Some (b && b')
      | _, _ => None
      end
  end.

Fixpoint filter_where (cs : list cond) (ms : list moment_row)
  : option (list moment_row) :=
  match ms with
  | [] => Some []
  | m :: ms' =>
      match eval_where m cs, filter_where cs ms' with
      | Some b, Some r => Some (if b then m :: r else r)
      | _, _ => None
      end
  end.

(** The rows of [m LEFT JOIN moments_tags mt LEFT JOIN tags t] for one
    moment, reduced to their [t] part ([None] where [t] is all NULL). *)
Definition joined_tags (db : database) (m : moment_row) : list (option tag_row) :=
  match filter (fun mt => (mt_moment_id mt =? m_id m)%Z) (moments_tags db) with
  | [] => [None]
  | mts =>
      flat_map
        (fun mt =>
           match filter (fun t => (t_id t =? mt_tag_id mt)%Z) (tags db) with
           | [] => [None]
           | ts => map Some ts
           end)
        mts
  end.

(** [json_agg(...) FILTER (WHERE t.name IS NOT NULL)], [[]] when empty. *)
Fixpoint agg_tags (js : list (option tag_row)) : list tag_row :=
  match js with
  | [] => []
  | Some t :: r => t :: agg_tags r
  | None :: r => agg_tags r
  end.

(** [$k = ANY (array_agg(t.name))] holds when some joined row carries
    that name; a group with only NULL names does not pass. *)
Definition any_name (s : string) (js : list (option tag_row)) : bool :=
  existsb
    (fun j => match j with
              | Some t => String.eqb s (t_name t)
              | None => false
              end)
    js.

Record moment_result := {
  r_id : Z;
  r_title : string;
  r_text : string;
  r_date : Z;
  r_tags : list tag_row
}.

(** One output row per group; [m.id] is the primary key of [moments],
    so a group is one moment with its joined tags. *)
Definition group_row (db : database) (m : moment_row) : moment_result :=
  {| r_id := m_id m; r_title := m_title m; r_text := m_text m;
     r_date := m_date m; r_tags := agg_tags (joined_tags db m) |}.

Definition having_ok (db : database) (h : option string) (m : moment_row) : bool :=
  match h with
  | None => true
  | Some s => any_name s (joined_tags db m)
  end.

(** [ORDER BY m.date DESC] *)
Fixpoint insert_desc (r : moment_result) (rs : list moment_result)
  : list moment_result :=
  match rs with
  | [] => [r]
  | x :: rs' =>
      if (r_date x <=? r_date r)%Z then r :: rs else x :: insert_desc r rs'
  end.

Fixpoint order_by_date_desc (rs : list moment_result) : list moment_result :=
  match rs with
  | [] => []
  | r :: rs' => insert_desc r (order_by_date_desc rs')
  end.

Definition select_moments (db : database) (q : string) (vals : list value)
  : outcome (list moment_result) :=
  match parse_select_moments q with
  | None => Throw (DbError "syntax error")
  | Some stmt =>
      if negb (bound_ok (query_placeholders stmt) (List.length vals))
      then Throw (DbError "parameter count mismatch")
      else
        match bind_where vals (q_where stmt), bind_having vals (q_having stmt) with
        | Some cs, Some h =>
            match filter_where cs (moments db) with
            | None => Throw (DbError "LIKE pattern must not end with escape character")
            | Some ms =>
                Return (order_by_date_desc
                          (map (group_row db) (filter (having_ok db h) ms)))
            end
        | _, _ => Throw (DbError "parameter type mismatch")
        end
  end.

(** *** The fixed statements

    These are passed to the engine in parsed form; the SQL text of each
    is quoted above its definition.  A statement with placeholders
    [$1..$n] needs exactly [n] values of the column types. *)

Definition mismatch {A} : outcome A := Throw (DbError "parameter mismatch").

(** What the engine answers when a value bound to an integer column is
    not a value of that type. *)
Definition out_of_range {A} : outcome A :=
  Throw (DbError "value out of range for type integer").

(** [SELECT username FROM users WHERE username = $1] *)
Definition select_user (db : database) (vals : list value) : outcome (list string) :=
  match vals with
  | [VStr u] => Return (filter (fun x => String.eqb x u) (users db))
  | _ => mismatch
  end.

(** [SELECT id, title, text, date, username FROM moments WHERE id = $1] *)
Definition select_moment (db : database) (vals : list value)
  : outcome (list moment_row) :=
  match vals with
  | [VInt id] =>
      if int4 id then Return (filter (fun m => (m_id m =? id)%Z) (moments db))
      else out_of_range
  | _ => mismatch
  end.

Record media_item := { mi_id : Z; mi_url : string; mi_type : string }.

(** [SELECT id, url, type FROM moment_media WHERE moment_id = $1] *)
Definition select_media (db : database) (vals : list value)
  : outcome (list media_item) :=
  match vals with
  | [VInt id] =>
      if int4 id then
        Return (map (fun r => {| mi_id := md_id r; mi_url := md_url r;
                                 mi_type := md_type r |})
                    (filter (fun r => (md_moment_id r =? id)%Z) (moment_media db)))
      else out_of_range
  | _ => mismatch
  end.

(** [SELECT id, name FROM tags JOIN moments_tags mt ON id = mt.tag_id
     WHERE mt.moment_id = $1] *)
Definition select_tags (db : database) (vals : list value) : outcome (list tag_row) :=
  match vals with
  | [VInt id] =>
      if int4 id then
        Return (flat_map
                  (fun t =>
                     map (fun _ => t)
                         (filter (fun mt => (t_id t =? mt_tag_id mt)%Z
                                            && (mt_moment_id mt =? id)%Z)
                                 (moments_tags db)))
                  (tags db))
      else out_of_range
  | _ => mismatch
  end.

(** The columns of [moments] that an update payload can name. *)
Inductive column := ColTitle | ColText | ColDate.

Definition column_eqb (a b : column) : bool :=
  match a, b with
  | ColTitle, ColTitle | ColText, ColText | ColDate, ColDate => true
  | _, _ => false
  end.

Inductive assignment :=
| SetTitle (s : string)
| SetText (s : string)
| SetDate (d : Z).

Definition bind_set (vals : list value) (ck : column * nat) : option assignment :=
  match fst ck, param vals (snd ck) with
  | ColTitle, Some (VStr s) => Some (SetTitle s)
  | ColText, Some (VStr s) => Some (SetText s)
  | ColDate, Some (VDate d) => Some (SetDate d)
  | _, _ => None
  end.

Fixpoint bind_sets (vals : list value) (sets : list (column * nat))
  : option (list assignment) :=
  match sets with
  | [] => Some []
  | ck :: r =>
      match bind_set vals ck, bind_sets vals r with
      | Some a, Some l => Some (a :: l)
      | _, _ => None
      end
  end.

Definition apply_set (m : moment_row) (a : assignment) : moment_row :=
  match a with
  | SetTitle s =>
      {| m_id := m_id m; m_title := s; m_text := m_text m;
         m_date := m_date m; m_username := m_username m |}
  | SetText s =>
      {| m_id := m_id m; m_title := m_title m; m_text := s;
         m_date := m_date m; m_username := m_username m |}
  | SetDate d =>
      {| m_id := m_id m; m_title := m_title m; m_text := m_text m;
         m_date := d; m_username := m_username m |}
  end.

Definition apply_sets (asg : list assignment) (m : moment_row) : moment_row :=
  fold_left apply_set asg m.

Fixpoint distinct_columns (cs : list column) : bool :=
  match cs with
  | [] => true
  | c :: r => negb (existsb (column_eqb c) r) && distinct_columns r
  end.

Definition set_moments (db : database) (ms : list moment_row) : database :=
  {| users := users db; moments_entries := ms;
     moment_media_entries := moment_media_entries db;
     tags_entries := tags_entries db; moments_tags := moments_tags db |}.

(** [UPDATE moments SET <sets> WHERE id = $<idph>
     RETURNING id, title, text, date, username]

    An empty [SET] list is not a statement, and a column may be
    assigned only once. *)
Definition update_moments (db : database) (sets : list (column * nat))
           (idph : nat) (vals : list value) : database * outcome (list moment_row) :=
  match sets with
  | [] => (db, Throw (DbError "syntax error"))
  | _ :: _ =>
      if negb (bound_ok (map snd sets ++ [idph])%list (List.length vals))
      then (db, Throw (DbError "parameter count mismatch"))
      else if negb (distinct_columns (map fst sets))
      then (db, Throw (DbError "multiple assignments to same column"))
      else
        match bind_sets vals sets, param vals idph with
        | Some asg, Some (VInt id) =>
            if int4 id then
              (set_moments db
                 (map (fun m => if (m_id m =? id)%Z then apply_sets asg m else m)
                      (moments_entries db)),
               Return (map (apply_sets asg)
                           (filter (fun m => (m_id m =? id)%Z) (moments db))))
            else (db, out_of_range)
        | _, _ => (db, Throw (DbError "parameter type mismatch"))
        end
  end.

(** Modelled from the spec: the schema file is not among the sources.
    The data model of the specification lists the tables and says that
    a moment has many media rows and many tags through the join table,
    with the foreign keys enforced by the schema.  Rows of
    [moment_media] and [moments_tags] that reference a deleted moment
    are taken to be deleted with it, and a media row cannot be inserted
    for a moment that does not exist.

    [DELETE FROM moments WHERE id = $1 RETURNING id] *)
Definition delete_moment (db : database) (vals : list value)
  : database * outcome (list Z) :=
  match vals with
  | [VInt id] =>
      if int4 id then
        let gone := filter (fun m => (m_id m =? id)%Z) (moments db) in
        match gone with
        | [] => (db, Return [])
        | _ :: _ =>
            ({| users := users db;
                moments_entries :=
                  filter (fun m => negb (m_id m =? id)%Z) (moments_entries db);
                moment_media_entries :=
                  filter (fun r => negb (md_moment_id r =? id)%Z)
                         (moment_media_entries db);
                tags_entries := tags_entries db;
                moments_tags :=
                  filter (fun mt => negb (mt_moment_id mt =? id)%Z) (moments_tags db) |},
             Return (map m_id gone))
        end
      else (db, out_of_range)
  | _ => (db, mismatch)
  end.

(** [INSERT INTO moment_media (type, url, moment_id) VALUES ($1, $2, $3)
     RETURNING id, type, url, moment_id AS 'momentId']

    The alias of the last returned column is written between single
    quotes, which makes it a string constant: PostgreSQL takes an
    identifier there, so the statement is rejected when it is parsed and
    nothing is inserted. *)
Definition insert_media (db : database) (vals : list value)
  : database * outcome (list media_row) :=
  (db, Throw (DbError "syntax error at or near 'momentId'")).

(** [DELETE FROM moment_media WHERE id = $1] *)
Definition delete_media (db : database) (vals : list value)
  : database * outcome unit :=
  match vals with
  | [VInt id] =>
      if int4 id then
        ({| users := users db; moments_entries := moments_entries db;
            moment_media_entries :=
              filter (fun r => negb (md_id r =? id)%Z) (moment_media_entries db);
            tags_entries := tags_entries db; moments_tags := moments_tags db |},
         Return tt)
      else (db, out_of_range)
  | _ => (db, mismatch)
  end.

(** [DELETE FROM moments_tags WHERE moment_id = $1 AND tag_id = $2] *)
Definition delete_moment_tag (db : database) (vals : list value)
  : database * outcome unit :=
  match vals with
  | [VInt momentId; VInt tagId] =>
      if int4 momentId && int4 tagId then
        ({| users := users db; moments_entries := moments_entries db;
            moment_media_entries := moment_media_entries db;
            tags_entries := tags_entries db;
            moments_tags :=
              filter (fun mt => negb ((mt_moment_id mt =? momentId)%Z
                                      && (mt_tag_id mt =? tagId)%Z))
                     (moments_tags db) |},
         Return tt)
      else (db, out_of_range)
  | _ => (db, mismatch)
  end.

(** Modelled from the spec: the schema file is not among the sources.
    The data model of the specification makes [moments_tags] the join
    table between moments and tags, with foreign keys and uniqueness
    enforced by the schema: a row is accepted when its moment and its
    tag exist and the pair is not in the table yet.

    [INSERT INTO moments_tags (moment_id, tag_id) VALUES ($1, $2)
     RETURNING moment_id, tag_id] *)
Definition insert_moment_tag (db : database) (vals : list value)
  : database * outcome (list moment_tag_row) :=
  match vals with
  | [VInt momentId; VInt tagId] =>
      if negb (int4 momentId && int4 tagId) then (db, out_of_range)
      else if negb (existsb (fun m => (m_id m =? momentId)%Z) (moments db)
                    && existsb (fun t => (t_id t =? tagId)%Z) (tags db))
      then (db, Throw (DbError "foreign key violation"))
      else if existsb (fun mt => (mt_moment_id mt =? momentId)%Z
                                 && (mt_tag_id mt =? tagId)%Z)
                      (moments_tags db)
      then (db, Throw (DbError "duplicate key"))
      else
        let row := {| mt_moment_id := momentId; mt_tag_id := tagId |} in
        ({| users := users db; moments_entries := moments_entries db;
            moment_media_entries := moment_media_entries db;
            tags_entries := tags_entries db;
            moments_tags := (moments_tags db ++ [row])%list |},
         Return [row])
  | _ => (db, mismatch)
  end.

End Pg.

Import Pg.

(* ===================================================================== *)
(** ** backend/helpers/sql.js *)
(* ===================================================================== *)

(** Modelled from the spec: helpers/sql.js is not among the sources.  The
  specification calls [sqlForPartialUpdate] a straightforward
  string-assembly utility of the query builder for partial updates: from
  the entries of [dataToUpdate] it assembles the [SET] list, one
  [column = $i] per key with [i] counting from 1, and returns it with
  the values in the same order.  The [SET] list is kept in parsed form.
  With the empty renaming table that [Moment.update] passes, a key is
  its own column name. *)
Definition sqlForPartialUpdate (dataToUpdate : list (column * value))
: list (column * nat) * list value :=
(combine (map fst dataToUpdate) (seq 1 (List.length dataToUpdate)),
 map snd dataToUpdate).

(* ===================================================================== *)
(** ** backend/models/moment.js *)
(* ===================================================================== *)

Module Moment.

(** [searchFilters]: every key is optional ([None] is [undefined]). *)
Record searchFilters := {
  tag : option string;
  title : option string;
  text : option string;
  dateStart : option Z;
  dateEnd : option Z
}.

Definition LF : string := String (ascii_of_nat 10) "".
Definition TAB : string := String (ascii_of_nat 9) "".

Fixpoint rep (n : nat) (s : string) : string :=
  match n with
  | O => ""
  | S n' => s ++ rep n' s
  end.

(** The template literal that opens [query], with its line breaks and
    indentation. *)
Definition select_head : string :=
  "SELECT m.id," ++ LF
  ++ rep 24 " " ++ "m.title," ++ LF
  ++ rep 24 " " ++ "m.text," ++ LF
  ++ rep 6 TAB ++ "m.date," ++ LF
  ++ rep 6 TAB
  ++ "COALESCE(json_agg(json_build_object('id', t.id, 'name', t.name))" ++ LF
  ++ rep 6 TAB ++ "FILTER (WHERE t.name IS NOT NULL), '[]') AS tags" ++ LF
  ++ rep 17 " " ++ TAB ++ "FROM moments m" ++ LF
  ++ rep 5 TAB ++ "LEFT JOIN moments_tags mt ON mt.moment_id = m.id" ++ LF
  ++ rep 5 TAB ++ "LEFT JOIN tags t ON t.id = mt.tag_id" ++ LF
  ++ rep 16 " ".

(** The two arrays that the search terms are pushed onto. *)
Record builder := {
  queryValues : list value;
  whereExpressions : list string
}.

(** [queryValues.push(v); whereExpressions.push(`<lhs>$${queryValues.length}`)] *)
Definition push_term (b : builder) (v : value) (lhs : string) : builder :=
  let qv := (queryValues b ++ [v])%list in
  {| queryValues := qv;
     whereExpressions :=
       (whereExpressions b ++ [(lhs ++ show_nat (List.length qv))%string])%list |}.

(** The statement text and parameter array that [findAll] hands to
    [db.query]. *)
Definition findAll_query (username : string) (f : searchFilters)
  : string * list value :=
  let b := {| queryValues := []; whereExpressions := [] |} in
  let b := if truthy username
           then push_term b (VStr username) "m.username = $" else b in
  let b := match title f with
           | Some t => push_term b (VStr ("%" ++ t ++ "%")) "m.title ILIKE $"
           | None => b
           end in
  let b := match text f with
           | Some t => push_term b (VStr ("%" ++ t ++ "%")) "m.text ILIKE $"
           | None => b
           end in
  let b := match dateStart f with
           | Some d => push_term b (VDate d) "m.date >= $"
           | None => b
           end in
  let b := match dateEnd f with
           | Some d => push_term b (VDate d) "m.date <= $"
           | None => b
           end in
  let query := select_head in
  let query := if (0 <? List.length (whereExpressions b))%nat
               then query ++ " WHERE " ++ join " AND " (whereExpressions b)
               else query in
  let query := query ++ " GROUP BY m.id" in
  let '(query, values) :=
    match tag f with
    | Some t =>
        let qv := (queryValues b ++ [VStr t])%list in
        (query ++ " HAVING $" ++ show_nat (List.length qv)
               ++ " = ANY (array_agg(t.name)) ", qv)
    | None => (query, queryValues b)
    end in
  (query ++ " ORDER BY m.date DESC", values).

Definition findAll (db : database) (username : string) (f : searchFilters)
  : outcome (list moment_result) :=
  match select_user db [VStr username] with
  | Throw e => Throw e
  | Return preCheck =>
      match preCheck with
      | [] => Throw (NotFoundError ("No user: " ++ username))
      | _ :: _ =>
          let '(query, values) := findAll_query username f in
          select_moments db query values
      end
  end.

(** What [get] returns: the moment row with [media] and [tags] added. *)
Record moment_detail := {
  g_moment : moment_row;
  g_media : list media_item;
  g_tags : list tag_row
}.

Definition get (db : database) (id : Z) : outcome moment_detail :=
  match select_moment db [VInt id] with
  | Throw e => Throw e
  | Return momentRes =>
      match momentRes with
      | [] => Throw (NotFoundError ("No moment: " ++ show_Z id))
      | moment :: _ =>
          match select_media db [VInt (m_id moment)] with
          | Throw e => Throw e
          | Return mediaRes =>
              match select_tags db [VInt (m_id moment)] with
              | Throw e => Throw e
              | Return tagRes =>
                  Return {| g_moment := moment; g_media := mediaRes;
                            g_tags := tagRes |}
              end
          end
      end
  end.

(** The update payload: an object with any of the keys [title], [text]
    and [date].  Its entries are listed in that order; the order of the
    keys of the object has no bearing on what the statement does. *)
Record moment_data := {
  d_title : option string;
  d_text : option string;
  d_date : option Z
}.

Definition entries (data : moment_data) : list (column * value) :=
  (match d_title data with Some s => [(ColTitle, VStr s)] | None => [] end
   ++ match d_text data with Some s => [(ColText, VStr s)] | None => [] end
   ++ match d_date data with Some d => [(ColDate, VDate d)] | None => [] end)%list.

Definition update (db : database) (id : Z) (data : moment_data)
  : database * outcome moment_row :=
  let '(setCols, values) := sqlForPartialUpdate (entries data) in
  let idVarIdx := (List.length values + 1)%nat in
  match update_moments db setCols idVarIdx (values ++ [VInt id])%list with
  | (db', Throw e) => (db', Throw e)
  | (db', Return rows) =>
      match rows with
      | [] => (db', Throw (NotFoundError ("No moment: " ++ show_Z id)))
      | moment :: _ => (db', Return moment)
      end
  end.

Definition remove (db : database) (id : Z) : database * outcome unit :=
  match delete_moment db [VInt id] with
  | (db', Throw e) => (db', Throw e)
  | (db', Return rows) =>
      match rows with
      | [] => (db', Throw (NotFoundError ("No moment: " ++ show_Z id)))
      | _ :: _ => (db', Return tt)
      end
  end.

Record media_payload := { type : string; url : string }.

(** [addMedia] awaits [db.query] without keeping its result and then
    reads [results.rows[0]]; no binding named [results] is in scope, so
    that read throws.  [run] is the engine's execution of the INSERT. *)
Definition addMedia_on
           (run : database -> list value -> database * outcome (list media_row))
           (db : database) (momentId : Z) (data : media_payload)
  : database * outcome media_row :=
  match run db [VStr (type data); VStr (url data); VInt momentId] with
  | (db', Throw e) => (db', Throw e)
  | (db', Return _) => (db', Throw (ReferenceError "results is not defined"))
  end.

Definition addMedia : database -> Z -> media_payload -> database * outcome media_row :=
  addMedia_on insert_media.

Definition removeMedia (db : database) (momentMediaId : Z)
  : database * outcome unit :=
  delete_media db [VInt momentMediaId].

Definition removeTag (db : database) (momentId tagId : Z)
  : database * outcome unit :=
  delete_moment_tag db [VInt momentId; VInt tagId].

(** [applyTag] returns [result.rows[0]]: the inserted pair, or
    [undefined] ([None]) if the statement returned no row. *)
Definition applyTag (db : database) (momentId tagId : Z)
  : database * outcome (option moment_tag_row) :=
  match insert_moment_tag db [VInt momentId; VInt tagId] with
  | (db', Throw e) => (db', Throw e)
  | (db', Return rows) => (db', Return (hd_error rows))
  end.

End Moment.

(* ===================================================================== *)
(** ** backend/middleware/auth.js *)
(* ===================================================================== *)

Module Auth.

(** The payload of a token; a payload need not carry a [username]. *)
Record payload := { username : option string }.

Record headers := { authorization : option string }.
Record params := { params_username : option string }.
Record body := { body_username : option string }.

(** The parts of an Express request that the middleware reads or
    writes.  [req.params] is always an object; [req.headers] and
    [req.body] may be undefined. *)
Record express_request := {
  req_headers : option headers;
  req_user : option payload;
  req_params : params;
  req_body : option body
}.

Definition set_user (req : express_request) (u : payload) : express_request :=
  {| req_headers := req_headers req; req_user := Some u;
     req_params := req_params req; req_body := req_body req |}.

(** How the middleware hands over: [next()] or [next(err)]. *)
Inductive next_call :=
| Next
| NextErr (err : exn).

(** [authHeader.replace(/^[Bb]earer /, "")] *)
Definition strip_bearer (authHeader : string) : string :=
  match strip_prefix "Bearer " authHeader with
  | Some rest => rest
  | None =>
      match strip_prefix "bearer " authHeader with
      | Some rest => rest
      | None => authHeader
      end
  end.

Section Middleware.

(** [SECRET_KEY] comes from the configuration and [jwt.verify] from
    the jsonwebtoken package; [None] stands for a thrown error. *)
Variable SECRET_KEY : string.
Variable jwt_verify : string -> string -> option payload.

Definition authenticateJWT (req : express_request) : express_request * next_call :=
  let authHeader :=
    match req_headers req with
    | Some h => authorization h
    | None => None
    end in
  match authHeader with
  | Some h =>
      if truthy h then
        let token := trim (strip_bearer h) in
        match jwt_verify token SECRET_KEY with
        | Some p => (set_user req p, Next)
        | None => (req, Next)
        end
      else (req, Next)
  | None => (req, Next)
  end.

Definition ensureLoggedIn (req : express_request) : express_request * next_call :=
  match req_user req with
  | Some user =>
      if truthy_opt (username user) then (req, Next)
      else (req, NextErr UnauthorizedError)
  | None => (req, NextErr UnauthorizedError)
  end.

(** [user && user.username === (req.params.username || req.body.username)]:
    [req.body] is only read when the route parameter is falsy, and
    reading a property of an undefined body throws a [TypeError],
    which the [catch] passes to [next]. *)
Definition ensureCorrectUser (req : express_request) : express_request * next_call :=
  match req_user req with
  | None => (req, NextErr UnauthorizedError)
  | Some user =>
      let fromParams := params_username (req_params req) in
      if truthy_opt fromParams then
        if strict_eq (username user) fromParams then (req, Next)
        else (req, NextErr UnauthorizedError)
      else
        match req_body req with
        | None =>
            (req, NextErr (TypeError "Cannot read properties of undefined"))
        | Some b =>
            if strict_eq (username user) (body_username b) then (req, Next)
            else (req, NextErr UnauthorizedError)
        end
  end.

End Middleware.

End Auth.

(* ===================================================================== *)
(** ** wonder-journal/src/api.js *)
(* ===================================================================== *)

Module Api.

(** JavaScript values as they occur in requests and responses. *)
#[local] Unset Elimination Schemes.
Inductive jsval :=
| JUndefined
| JNull
| JBool (b : bool)
| JNum (n : Z)
| JStr (s : string)
| JArr (items : list jsval)
| JObj (props : list (string * jsval)).
#[local] Set Elimination Schemes.

Fixpoint lookup (k : string) (props : list (string * jsval)) : jsval :=
  match props with
  | [] => JUndefined
  | (k', v) :: r => if String.eqb k k' then v else lookup k r
  end.

Definition is_index (k : string) : bool :=
  match digits k 0 with
  | Some _ => negb (String.eqb k "")
  | None => false
  end.

(** [v.k] for a property name [k]: reading a property of [undefined]
    or [null] throws ([None]); primitives and arrays have [length] and
    index properties at most, which the client never reads. *)
Definition get_prop (v : jsval) (k : string) : option jsval :=
  match v with
  | JUndefined | JNull => None
  | JObj props => Some (lookup k props)
  | JArr items =>
      if String.eqb k "length" then Some (JNum (Z.of_nat (List.length items)))
      else if is_index k then
        match digits k 0 with
        | Some i => Some (nth i items JUndefined)
        | None => Some JUndefined
        end
      else Some JUndefined
  | JStr s =>
      if String.eqb k "length" then Some (JNum (Z.of_nat (String.length s)))
      else if is_index k then
        match digits k 0 with
        | Some i =>
            match String.get i s with
            | Some c => Some (JStr (String c ""))
            | None => Some JUndefined
            end
        | None => Some JUndefined
        end
      else Some JUndefined
  | JBool _ | JNum _ => Some JUndefined
  end.

(** [Array.isArray] *)
Definition isArray (v : jsval) : bool :=
  match v with
  | JArr _ => true
  | _ => false
  end.

(** What a call completes with: a returned value, a thrown value, or
    the [TypeError] of a failed property read. *)
Inductive completion :=
| Returned (v : jsval)
| Thrown (v : jsval)
| ThrownTypeError.

Record axios_config := {
  cfg_url : string;
  cfg_method : string;
  cfg_data : jsval;
  cfg_params : jsval;
  cfg_headers : list (string * string)
}.

(** The promise of an axios call: fulfilled with a response, of which
    [data] is kept, or rejected with an error, of which [response] is
    kept ([JUndefined] when no response was received). *)
Inductive axios_result :=
| Fulfilled (data : jsval)
| Rejected (response : jsval).

(** [err.response.data.error.message] *)
Definition error_message (response : jsval) : option jsval :=
  match get_prop response "data" with
  | None => None
  | Some data =>
      match get_prop data "error" with
      | None => None
      | Some error => get_prop error "message"
      end
  end.

Section Client.

Variable BASE_URL : string.
(** The module variable [token]; [None] until [setApiToken] is called. *)
Variable token : option string.
Variable axios : axios_config -> axios_result.

(** The argument of the axios call: [{ url, method, data, params, headers }]. *)
Definition request_config (endpoint : string) (data : jsval) (method : string)
  : axios_config :=
  let url := BASE_URL ++ "/" ++ endpoint in
  let headers :=
    [("Authorization",
      "Bearer " ++ match token with Some t => t | None => "undefined" end)] in
  let params := if String.eqb method "get" then data else JObj [] in
  {| cfg_url := url; cfg_method := method; cfg_data := data;
     cfg_params := params; cfg_headers := headers |}.

Definition request (endpoint : string) (data : jsval) (method : string)
  : completion :=
  match axios (request_config endpoint data method) with
  | Fulfilled d => Returned d
  | Rejected response =>
      match error_message response with
      | None => ThrownTypeError
      | Some message =>
          Thrown (if isArray message then message else JArr [message])
      end
  end.

(** [let res = await request(...); return res.<k>;] *)
Definition returning (k : string) (c : completion) : completion :=
  match c with
  | Returned res =>
      match get_prop res k with
      | Some v => Returned v
      | None => ThrownTypeError
      end
  | Thrown v => Thrown v
  | ThrownTypeError => ThrownTypeError
  end.

Definition loginApi (username password : jsval) : completion :=
  returning "token"
    (request "auth/token"
       (JObj [("username", username); ("password", password)]) "post").

Definition getUser (username : string) : completion :=
  returning "user" (request ("users/" ++ username) (JObj []) "get").

Definition signupApi (data : jsval) : completion :=
  returning "token" (request "auth/register" data "post").

Definition updateUser (username : string) (data : jsval) : completion :=
  returning "user" (request ("users/" ++ username) data "patch").

Definition momentCreateApi (data : jsval) : completion :=
  returning "moment" (request "moments/" data "post").

Definition momentGetApi (momentId : string) : completion :=
  returning "moment" (request ("moments/" ++ momentId) (JObj []) "get").

Definition momentGetAllApi : completion :=
  returning "moment" (request "moments/" (JObj []) "get").

End Client.

End Api.

(* ===================================================================== *)
(** ** The vocabulary of the specification *)
(* ===================================================================== *)

Module Spec.

Import Moment Auth.

(** *** Search *)

Fixpoint prefixb (p s : string) : bool :=
  match p, s with
  | EmptyString, _ => true
  | String a p', String b s' => Ascii.eqb a b && prefixb p' s'
  | String _ _, EmptyString => false
  end.

Fixpoint substringb (p s : string) : bool :=
  prefixb p s
  || match s with
     | EmptyString => false
     | String _ s' => substringb p s'
     end.

(** Case-insensitive substring match: [needle] occurs in [hay]. *)
Definition contains_ci (hay needle : string) : bool :=
  substringb (lower needle) (lower hay).

(** The aggregated tag names of a moment. *)
Definition tag_names (db : database) (m : moment_row) : list string :=
  map t_name (r_tags (group_row db m)).




Definition is_wildcard (c : ascii) : bool :=
  is_percent c || is_underscore c || is_backslash c.

(** No [%], [_] or backslash occurs in the string. *)
Fixpoint wildcard_free (s : string) : bool :=
  match s with
  | EmptyString => true
  | String c r => negb (is_wildcard c) && wildcard_free r
  end.

(** The tokens of a pattern that consists of literal characters. *)
Fixpoint lits (s : string) : list ptok :=
  match s with
  | EmptyString => []
  | String c r => PLit c :: lits r
  end.

Definition newest_first (a b : moment_result) : Prop := (r_date b <= r_date a)%Z.

(** *** The statement and its parameters *)

Definition opt_list {A B} (o : option A) (g : A -> B) : list B :=
  match o with
  | Some a => [g a]
  | None => []
  end.

Definition wrap (s : string) : string := "%" ++ s ++ "%".

(** The values in the order in which they are pushed. *)
Definition pushed_values (username : string) (f : searchFilters) : list value :=
  ((if truthy username then [VStr username] else [])
   ++ opt_list (title f) (fun t => VStr (wrap t))
   ++ opt_list (text f) (fun t => VStr (wrap t))
   ++ opt_list (dateStart f) VDate
   ++ opt_list (dateEnd f) VDate
   ++ opt_list (tag f) VStr)%list.

(** The conditions of the [WHERE] clause, each with the value meant
    for it. *)
Definition intended_conds (username : string) (f : searchFilters) : list cond :=
  ((if truthy username then [CUsername username] else [])
   ++ opt_list (title f) (fun t => CTitle (wrap t))
   ++ opt_list (text f) (fun t => CText (wrap t))
   ++ opt_list (dateStart f) CDateGe
   ++ opt_list (dateEnd f) CDateLe)%list.

(** Every placeholder [$k] that occurs in a text, left to right. *)
Fixpoint scan_placeholders (s : string) (cur : option (option nat)) : list nat :=
  let flush := match cur with Some (Some n) => [n] | _ => [] end in
  match s with
  | EmptyString => flush
  | String c r =>
      match cur, digit c with
      | Some None, Some d => scan_placeholders r (Some (Some d))
      | Some (Some n), Some d => scan_placeholders r (Some (Some (10 * n + d)))
      | _, _ =>
          (flush ++ scan_placeholders r (if Ascii.eqb c "$" then Some None else None))%list
      end
  end.

Definition placeholders_in (q : string) : list nat := scan_placeholders q None.

(** The same call with every supplied value replaced by a fixed one:
    which terms are supplied is kept, what they are is forgotten. *)
Definition blank {A B} (o : option A) (b : B) : option B :=
  match o with
  | Some _ => Some b
  | None => None
  end.

Definition blank_username (username : string) : string :=
  if truthy username then "u" else "".

Definition blank_filters (f : searchFilters) : searchFilters :=
  {| tag := blank (tag f) ""; title := blank (title f) "";
     text := blank (text f) ""; dateStart := blank (dateStart f) 0%Z;
     dateEnd := blank (dateEnd f) 0%Z |}.

(** *** Keys *)

Definition moment_exists (db : database) (id : Z) : Prop :=
  exists m, In m (moments db) /\ m_id m = id.

Definition user_exists (db : database) (username : string) : Prop :=
  In username (users db).

(** *** Partial update *)

Definition or_keep {A} (o : option A) (old : A) : A :=
  match o with
  | Some a => a
  | None => old
  end.

(** A row after the update: a supplied field takes the supplied value,
    every other field keeps its own. *)
Definition patched (data : moment_data) (m : moment_row) : moment_row :=
  {| m_id := m_id m;
     m_title := or_keep (d_title data) (m_title m);
     m_text := or_keep (d_text data) (m_text m);
     m_date := or_keep (d_date data) (m_date m);
     m_username := m_username m |}.

Definition supplied (data : moment_data) : bool :=
  match d_title data, d_text data, d_date data with
  | None, None, None => false
  | _, _, _ => true
  end.

(** *** Authentication *)

Definition header_of (req : express_request) : option string :=
  match req_headers req with
  | Some h => authorization h
  | None => None
  end.

(** Removal of a [Bearer ] prefix written in any mix of cases. *)
Definition strip_bearer_any_case (authHeader : string) : string :=
  match strip_prefix "bearer " (lower (substring 0 7 authHeader)) with
  | Some _ => substring 7 (String.length authHeader - 7) authHeader
  | None => authHeader
  end.

(** The request after authentication: with [strip] removing the prefix,
    the payload is stored when the header is there and the token that
    remains verifies, and the request is left alone otherwise. *)
Definition authenticated (strip : string -> string) (SECRET_KEY : string)
           (jwt_verify : string -> string -> option payload) (req : express_request)
  : express_request :=
  match header_of req with
  | Some h =>
      match jwt_verify (trim (strip h)) SECRET_KEY with
      | Some p => set_user req p
      | None => req
      end
  | None => req
  end.

(** The username a request is checked against, reading "if present"
    as "if defined". *)
Definition username_if_present (req : express_request) : option string :=
  match params_username (req_params req) with
  | Some u => Some u
  | None =>
      match req_body req with
      | Some b => body_username b
      | None => None
      end
  end.

(** The username the code compares with: the route parameter unless it
    is undefined or empty. *)
Definition username_if_truthy (req : express_request) : option string :=
  if truthy_opt (params_username (req_params req))
  then params_username (req_params req)
  else match req_body req with
       | Some b => body_username b
       | None => None
       end.

Definition denied (r : express_request * next_call) : Prop :=
  snd r = NextErr UnauthorizedError.

Definition wrong_user (req : express_request) (target : option string) : Prop :=
  req_user req = None
  \/ exists user, req_user req = Some user /\ username user <> target.

(** *** The API client *)

Definition throws_array (c : Api.completion) : Prop :=
  exists items, c = Api.Thrown (Api.JArr items).

(** The value thrown for a server message: the message itself when it is
    an array, a one-element array around it otherwise. *)
Definition as_array (message : Api.jsval) : Api.jsval :=
  if Api.isArray message then message else Api.JArr [message].

(** *** Partial update and deletion *)


Definition media_exists (db : database) (id : Z) : Prop :=
  exists r, In r (moment_media db) /\ md_id r = id.

Definition tagged (db : database) (momentId tagId : Z) : Prop :=
  exists mt, In mt (moments_tags db)
             /\ mt_moment_id mt = momentId /\ mt_tag_id mt = tagId.

(** Two databases that differ at most in [moment_media], and at most in
    [moments_tags]. *)
Definition same_but_media (db db' : database) : Prop :=
  users db' = users db /\ moments db' = moments db
  /\ tags db' = tags db /\ moments_tags db' = moments_tags db.

Definition same_but_taggings (db db' : database) : Prop :=
  users db' = users db /\ moments db' = moments db
  /\ tags db' = tags db /\ moment_media db' = moment_media db.

End Spec.

(* ===================================================================== *)
(** ** Sample data *)
(* ===================================================================== *)

Module Sample.

Import Moment Auth.

Definition picnic : moment_row :=
  {| m_id := 1; m_title := "Picnic"; m_text := "Sun and bread";
     m_date := 19600; m_username := "ann" |}.

Definition storm : moment_row :=
  {| m_id := 2; m_title := "Storm at sea"; m_text := "No sun today";
     m_date := 19610; m_username := "ann" |}.

Definition recital : moment_row :=
  {| m_id := 3; m_title := "Recital"; m_text := "Played well";
     m_date := 19605; m_username := "bob" |}.

Definition journal : database :=
  {| users := ["ann"; "bob"];
     moments_entries := [picnic; storm; recital];
     moment_media_entries :=
       [{| md_id := 1; md_type := "image"; md_url := "https://img.example/1.png";
           md_moment_id := 1 |}];
     tags_entries :=
       [{| t_id := 1; t_name := "outdoors" |}; {| t_id := 2; t_name := "music" |}];
     moments_tags :=
       [{| mt_moment_id := 1; mt_tag_id := 1 |};
        {| mt_moment_id := 2; mt_tag_id := 1 |};
        {| mt_moment_id := 3; mt_tag_id := 2 |}] |}.



Definition no_filters : searchFilters :=
  {| tag := None; title := None; text := None; dateStart := None;
     dateEnd := None |}.


Definition title_underscore : searchFilters :=
  {| tag := None; title := Some "_"; text := None; dateStart := None;
     dateEnd := None |}.


Definition retitle : moment_data :=
  {| d_title := Some "Picnic by the lake"; d_text := None; d_date := None |}.

Definition photo : media_payload :=
  {| type := "image"; url := "https://img.example/2.png" |}.

Definition ann : payload := {| username := Some "ann" |}.

(** A verifier that accepts one token under one key. *)
Definition verify_one (token key : string) : option payload :=
  if String.eqb token "abc.def.ghi" && String.eqb key "s3cret"
  then Some ann else None.

Definition with_header (h : string) : express_request :=
  {| req_headers := Some {| authorization := Some h |};
     req_user := None;
     req_params := {| params_username := None |};
     req_body := None |}.

(** Ann asks for [/users/ann]. *)
Definition ann_own_route : express_request :=
  {| req_headers := None; req_user := Some ann;
     req_params := {| params_username := Some "ann" |};
     req_body := None |}.

(** An empty route parameter with a body that names someone else. *)
Definition empty_param : express_request :=
  {| req_headers := None; req_user := Some {| username := Some "" |};
     req_params := {| params_username := Some "" |};
     req_body := Some {| body_username := Some "bob" |} |}.

(** No route parameter and no parsed body. *)
Definition no_body : express_request :=
  {| req_headers := None; req_user := Some ann;
     req_params := {| params_username := None |};
     req_body := None |}.

(** A server that answers every call with a 404 and its message. *)
Definition axios_404 (_ : Api.axios_config) : Api.axios_result :=
  Api.Rejected
    (Api.JObj
       [("status", Api.JNum 404);
        ("data",
         Api.JObj
           [("error",
             Api.JObj [("message", Api.JStr "No moment: 7");
                       ("status", Api.JNum 404)])])]).

(** A network that never delivers a response. *)
Definition axios_offline (_ : Api.axios_config) : Api.axios_result :=
  Api.Rejected Api.JUndefined.

End Sample.

(* ===================================================================== *)
(** ** Middleware chains and further vocabulary *)
(* ===================================================================== *)

Module Chain.

Import Auth.

(** Express runs the next middleware after [next()] and goes to the
    error handlers after [next(err)]. *)
Definition and_then (first second : express_request -> express_request * next_call)
           (req : express_request) : express_request * next_call :=
  match first req with
  | (req', Next) => second req'
  | (req', NextErr e) => (req', NextErr e)
  end.

(** [authenticateJWT] followed by one of the guards. *)
Definition logged_in (SECRET_KEY : string)
           (jwt_verify : string -> string -> option payload)
  : express_request -> express_request * next_call :=
  and_then (authenticateJWT SECRET_KEY jwt_verify) ensureLoggedIn.

Definition correct_user (SECRET_KEY : string)
           (jwt_verify : string -> string -> option payload)
  : express_request -> express_request * next_call :=
  and_then (authenticateJWT SECRET_KEY jwt_verify) ensureCorrectUser.

Definition passes (r : express_request * next_call) : Prop := snd r = Next.

(** The request with its Authorization header set. *)
Definition with_authorization (req : express_request) (h : string)
  : express_request :=
  {| req_headers := Some {| authorization := Some h |};
     req_user := req_user req; req_params := req_params req;
     req_body := req_body req |}.

(** The token of the request verifies to [p]: there is a non-empty
    Authorization header and what is left of it after the prefix and the
    surrounding white space is accepted with payload [p]. *)
Definition verified_as (SECRET_KEY : string)
           (jwt_verify : string -> string -> option payload)
           (req : express_request) (p : payload) : Prop :=
  exists h, Spec.header_of req = Some h /\ h <> ""
            /\ jwt_verify (trim (strip_bearer h)) SECRET_KEY = Some p.

Fixpoint all_space (s : string) : bool :=
  match s with
  | EmptyString => true
  | String c r => is_space c && all_space r
  end.

End Chain.

Module Usage.

Import Moment.

(** The filters with the title, and with the text, replaced. *)
Definition with_title (f : searchFilters) (t : option string) : searchFilters :=
  {| tag := tag f; title := t; text := text f; dateStart := dateStart f;
     dateEnd := dateEnd f |}.

Definition with_text (f : searchFilters) (t : option string) : searchFilters :=
  {| tag := tag f; title := title f; text := t; dateStart := dateStart f;
     dateEnd := dateEnd f |}.

Definition tag_exists (db : database) (tagId : Z) : Prop :=
  exists t, In t (tags db) /\ t_id t = tagId.

(** The [id], [url] and [type] of a media row. *)
Definition item_of (r : media_row) : media_item :=
  {| mi_id := md_id r; mi_url := md_url r; mi_type := md_type r |}.

(** A moment tagged twice and a tag that is not used yet. *)
Definition scrapbook : database :=
  {| users := ["ann"];
     moments_entries := [Sample.picnic; Sample.storm];
     moment_media_entries :=
       [{| md_id := 1; md_type := "image"; md_url := "https://img.example/1.png";
           md_moment_id := 1 |};
        {| md_id := 2; md_type := "audio"; md_url := "https://img.example/2.mp3";
           md_moment_id := 1 |};
        {| md_id := 3; md_type := "image"; md_url := "https://img.example/3.png";
           md_moment_id := 2 |}];
     tags_entries := [{| t_id := 1; t_name := "outdoors" |};
                      {| t_id := 2; t_name := "food" |};
                      {| t_id := 3; t_name := "family" |}];
     moments_tags :=
       [{| mt_moment_id := 1; mt_tag_id := 1 |};
        {| mt_moment_id := 1; mt_tag_id := 2 |};
        {| mt_moment_id := 2; mt_tag_id := 1 |}] |}.

End Usage.

(* ===================================================================== *)
(** * Properties *)
(* ===================================================================== *)

(** ** Patterns *)

Section LikeFacts.

Lemma lower_app a b : lower (a ++ b) = lower a ++ lower b.
Proof. induction a as [|c a IH]; simpl; [reflexivity | now rewrite IH]. Qed.

Lemma like_tokens_step c r :
  like_tokens (String c r)
  = if is_backslash c then
      match r with
      | EmptyString => None
      | String d r' => option_map (cons (PLit d)) (like_tokens r')
      end
    else if is_percent c then option_map (cons PAny) (like_tokens r)
    else if is_underscore c then option_map (cons POne) (like_tokens r)
    else option_map (cons (PLit c)) (like_tokens r).
Proof. reflexivity. Qed.

Lemma like_tokens_percent_end t :
  like_tokens (t ++ "%") <> None
  /\ forall c, like_tokens (String c t ++ "%") <> None.
Proof.
  induction t as [|d t [IH1 IH2]].
  - split; [discriminate|].
    intros c. simpl.
    destruct (is_backslash c); [discriminate|].
    destruct (is_percent c); [discriminate|].
    destruct (is_underscore c); discriminate.
  - split; [apply IH2|].
    intros c. specialize (IH2 d).
    change (String c (String d t) ++ "%") with (String c (String d t ++ "%")).
    change (String d t ++ "%") with (String d (t ++ "%")) in *.
    rewrite (like_tokens_step c).
    destruct (is_backslash c).
    + destruct (like_tokens (t ++ "%")) eqn:E; [simpl; congruence | congruence].
    + destruct (like_tokens (String d (t ++ "%"))) eqn:E; [|congruence].
      destruct (is_percent c); [simpl; congruence|].
      destruct (is_underscore c); simpl; congruence.
Qed.

Lemma ilike_wrapped_defined s t : ilike s (Spec.wrap t) <> None.
Proof.
  unfold ilike, like, Spec.wrap.
  rewrite !lower_app.
  change (lower "%") with "%".
  change ("%" ++ lower t ++ "%") with (String "%" (lower t ++ "%")).
  cbn [like_tokens].
  change (is_backslash "%") with false. change (is_percent "%") with true.
  cbv iota.
  destruct (like_tokens_percent_end (lower t)) as [H _].
  destruct (like_tokens (lower t ++ "%")) eqn:E; [simpl; congruence | congruence].
Qed.

Lemma to_lower_not_wildcard c :
  Spec.is_wildcard c = false -> Spec.is_wildcard (to_lower c) = false.
Proof.
  destruct c as [[] [] [] [] [] [] [] []]; vm_compute; intro H; exact H || reflexivity.
Qed.

Lemma wildcard_free_lower t :
  Spec.wildcard_free t = true -> Spec.wildcard_free (lower t) = true.
Proof.
  induction t as [|c t IH]; simpl; [reflexivity|].
  intros H. apply andb_true_iff in H as [Hc Ht].
  apply negb_true_iff in Hc.
  rewrite (to_lower_not_wildcard c Hc). simpl. auto.
Qed.

Lemma like_tokens_literal t :
  Spec.wildcard_free t = true ->
  like_tokens (t ++ "%") = Some (Spec.lits t ++ [PAny])%list.
Proof.
  induction t as [|c t IH]; simpl; [reflexivity|].
  intros H. apply andb_true_iff in H as [Hc Ht].
  apply negb_true_iff in Hc. unfold Spec.is_wildcard in Hc.
  apply orb_false_iff in Hc as [Hc Hb]. apply orb_false_iff in Hc as [Hp Hu].
  rewrite Hb, Hp, Hu, (IH Ht). reflexivity.
Qed.

Lemma like_match_any ts s :
  like_match (PAny :: ts) s
  = like_match ts s
    || match s with
       | EmptyString => false
       | String _ s' => like_match (PAny :: ts) s'
       end.
Proof. destruct s; reflexivity. Qed.

Lemma like_match_any_last s : like_match [PAny] s = true.
Proof.
  induction s as [|c s IH]; [reflexivity|].
  rewrite like_match_any, IH. apply orb_true_r.
Qed.

Lemma like_match_prefix p s :
  like_match (Spec.lits p ++ [PAny])%list s = Spec.prefixb p s.
Proof.
  revert s. induction p as [|c p IH]; intros s.
  - simpl Spec.lits. simpl app. rewrite like_match_any_last. destruct s; reflexivity.
  - destruct s as [|d s]; [reflexivity|].
    simpl. now rewrite IH.
Qed.

Lemma like_match_substring p s :
  like_match (PAny :: Spec.lits p ++ [PAny])%list s = Spec.substringb p s.
Proof.
  induction s as [|d s IH].
  - rewrite like_match_any, like_match_prefix. reflexivity.
  - rewrite like_match_any, like_match_prefix, IH. reflexivity.
Qed.

(** A pattern [%t%] without wildcards in [t] is a case-insensitive
    substring test. *)
Lemma ilike_wrapped_substring s t :
  Spec.wildcard_free t = true ->
  ilike s (Spec.wrap t) = Some (Spec.contains_ci s t).
Proof.
  intros H. unfold ilike, like, Spec.wrap, Spec.contains_ci.
  rewrite !lower_app.
  change (lower "%") with "%".
  change ("%" ++ lower t ++ "%") with (String "%" (lower t ++ "%")).
  cbn [like_tokens].
  change (is_backslash "%") with false. change (is_percent "%") with true.
  cbv iota.
  rewrite (like_tokens_literal _ (wildcard_free_lower _ H)).
  cbn [option_map]. now rewrite like_match_substring.
Qed.
End LikeFacts.

(** ** The statement assembled by [findAll] *)

Section QueryFacts.
Import Moment.

Ltac by_shape u f :=
  destruct f as [[?|] [?|] [?|] [?|] [?|]]; destruct u as [|? ?].

Lemma findAll_query_values u f :
  snd (findAll_query u f) = Spec.pushed_values u f.
Proof. by_shape u f; reflexivity. Qed.

Lemma findAll_query_blank u f :
  fst (findAll_query u f)
  = fst (findAll_query (Spec.blank_username u) (Spec.blank_filters f)).
Proof. by_shape u f; reflexivity. Qed.

Lemma findAll_query_placeholders u f :
  Spec.placeholders_in (fst (findAll_query u f))
  = seq 1 (List.length (snd (findAll_query u f))).
Proof. by_shape u f; vm_compute; reflexivity. Qed.

Lemma findAll_query_reads_back u f :
  exists stmt,
    parse_select_moments (fst (findAll_query u f)) = Some stmt
    /\ bound_ok (query_placeholders stmt) (List.length (snd (findAll_query u f))) = true
    /\ bind_where (snd (findAll_query u f)) (q_where stmt)
       = Some (Spec.intended_conds u f)
    /\ bind_having (snd (findAll_query u f)) (q_having stmt) = Some (tag f).
Proof.
  by_shape u f;
    (eexists; split; [vm_compute; reflexivity | repeat split; reflexivity]).
Qed.
End QueryFacts.

(** ** Ordering and evaluation in the engine *)

Section OrderFacts.

Lemma insert_desc_perm r rs : Permutation (insert_desc r rs) (r :: rs).
Proof.
  induction rs as [|x rs IH]; simpl; [apply Permutation_refl|].
  destruct (r_date x <=? r_date r)%Z; [apply Permutation_refl|].
  eapply perm_trans; [apply perm_skip, IH | apply perm_swap].
Qed.

Lemma order_by_date_desc_perm rs : Permutation (order_by_date_desc rs) rs.
Proof.
  induction rs as [|r rs IH]; simpl; [constructor|].
  eapply perm_trans; [apply insert_desc_perm | now apply perm_skip].
Qed.

Lemma insert_desc_hd r x rs :
  Spec.newest_first x r -> HdRel Spec.newest_first x rs ->
  HdRel Spec.newest_first x (insert_desc r rs).
Proof.
  intros Hxr Hrs. destruct rs as [|y rs]; simpl.
  - now constructor.
  - destruct (r_date y <=? r_date r)%Z; constructor; auto.
    now inversion Hrs.
Qed.

Lemma insert_desc_sorted r rs :
  Sorted Spec.newest_first rs -> Sorted Spec.newest_first (insert_desc r rs).
Proof.
  induction 1 as [|x rs Hs IH Hhd]; simpl.
  - repeat constructor.
  - destruct (r_date x <=? r_date r)%Z eqn:E.
    + constructor; [now constructor|].
      constructor. unfold Spec.newest_first. lia.
    + constructor; [exact IH|].
      apply insert_desc_hd; [|exact Hhd].
      unfold Spec.newest_first. lia.
Qed.

Lemma order_by_date_desc_sorted rs :
  StronglySorted Spec.newest_first (order_by_date_desc rs).
Proof.
  apply Sorted_StronglySorted.
  - intros a b c. unfold Spec.newest_first. lia.
  - induction rs as [|r rs IH]; simpl; [constructor|].
    now apply insert_desc_sorted.
Qed.

End OrderFacts.

Section EngineFacts.
Import Moment.

Lemma filter_where_defined cs ms :
  (forall m, eval_where m cs <> None) ->
  filter_where cs ms
  = Some (filter (fun m => match eval_where m cs with
                           | Some b => b
                           | None => false
                           end) ms).
Proof.
  intros H. induction ms as [|m ms IH]; simpl; [reflexivity|].
  rewrite IH. specialize (H m).
  destruct (eval_where m cs) as [[]|]; congruence.
Qed.

Lemma any_name_tag_names db s m :
  any_name s (joined_tags db m) = existsb (String.eqb s) (Spec.tag_names db m).
Proof.
  unfold Spec.tag_names, group_row. simpl r_tags.
  induction (joined_tags db m) as [|[t|] js IH]; simpl; [reflexivity| |exact IH].
  now rewrite IH.
Qed.


Lemma eval_intended_defined u f m :
  eval_where m (Spec.intended_conds u f) <> None.
Proof.
  unfold Spec.intended_conds.
  destruct f as [tg [ti|] [tx|] [ds|] [de|]]; destruct (truthy u);
    cbn [Spec.opt_list Moment.title Moment.text Moment.dateStart Moment.dateEnd
         app eval_where eval_cond];
    repeat match goal with
           | |- context [ilike ?s (Spec.wrap ?t)] =>
               let E := fresh "E" in
               destruct (ilike s (Spec.wrap t)) eqn:E;
               [|exfalso; exact (ilike_wrapped_defined s t E)]
           end;
    discriminate.
Qed.
End EngineFacts.

(** ** [findAll] *)

Section FindAllFacts.
Import Moment.

Lemma select_user_found db u :
  Spec.user_exists db u ->
  exists x rest, select_user db [VStr u] = Return (x :: rest).
Proof.
  unfold Spec.user_exists, select_user. intros H.
  assert (Hin : In u (filter (fun x => String.eqb x u) (users db))).
  { apply filter_In. split; [exact H | apply String.eqb_refl]. }
  destruct (filter (fun x => String.eqb x u) (users db)) as [|x rest];
    [contradiction | eauto].
Qed.

Lemma select_user_missing db u :
  ~ Spec.user_exists db u -> select_user db [VStr u] = Return [].
Proof.
  unfold Spec.user_exists, select_user. intros H.
  destruct (filter (fun x => String.eqb x u) (users db)) as [|x rest] eqn:E;
    [reflexivity|].
  exfalso. apply H.
  assert (Hin : In x (filter (fun x => String.eqb x u) (users db)))
    by (rewrite E; now left).
  apply filter_In in Hin as [Hin Hx]. apply String.eqb_eq in Hx. now subst.
Qed.

(** What the engine makes of the statement that [findAll] assembles. *)
Lemma select_moments_findAll_query db u f :
  select_moments db (fst (findAll_query u f)) (snd (findAll_query u f))
  = Return
      (order_by_date_desc
         (map (group_row db)
            (filter (having_ok db (tag f))
               (filter (fun m => match eval_where m (Spec.intended_conds u f) with
                                 | Some b => b
                                 | None => false
                                 end)
                  (moments db))))).
Proof.
  unfold select_moments.
  destruct (findAll_query_reads_back u f) as (stmt & Hp & Hb & Hw & Hh).
  rewrite Hp, Hb, Hw, Hh. cbn [negb].
  rewrite filter_where_defined by apply eval_intended_defined.
  reflexivity.
Qed.

Lemma findAll_of_user db u f :
  Spec.user_exists db u ->
  findAll db u f
  = select_moments db (fst (findAll_query u f)) (snd (findAll_query u f)).
Proof.
  intros H. unfold findAll.
  destruct (select_user_found db u H) as (x & rest & ->).
  now destruct (findAll_query u f).
Qed.

Lemma findAll_no_user db u f :
  ~ Spec.user_exists db u ->
  findAll db u f = Throw (NotFoundError ("No user: " ++ u)).
Proof.
  intros H. unfold findAll. now rewrite (select_user_missing db u H).
Qed.

End FindAllFacts.

(** ** Lookup by key *)

Section KeyFacts.
Import Moment.

Lemma rows_with_id_none db id :
  filter (fun m => (m_id m =? id)%Z) (moments db) = [] <-> ~ Spec.moment_exists db id.
Proof.
  unfold Spec.moment_exists. split.
  - intros E (m & Hin & Hid).
    assert (H : In m (filter (fun m => (m_id m =? id)%Z) (moments db))).
    { apply filter_In. split; [exact Hin | now apply Z.eqb_eq]. }
    rewrite E in H. exact H.
  - intros H.
    destruct (filter (fun m => (m_id m =? id)%Z) (moments db)) as [|m r] eqn:E;
      [reflexivity|].
    exfalso. apply H. exists m.
    assert (Hin : In m (filter (fun m => (m_id m =? id)%Z) (moments db)))
      by (rewrite E; now left).
    apply filter_In in Hin as [Hin Hid]. now apply Z.eqb_eq in Hid.
Qed.

Lemma rows_with_id_some db id :
  Spec.moment_exists db id ->
  exists m r,
    filter (fun m => (m_id m =? id)%Z) (moments db) = m :: r
    /\ In m (moments db) /\ m_id m = id.
Proof.
  intros H.
  destruct (filter (fun m => (m_id m =? id)%Z) (moments db)) as [|m r] eqn:E.
  - now apply rows_with_id_none in E.
  - exists m, r. split; [reflexivity|].
    assert (Hin : In m (filter (fun m => (m_id m =? id)%Z) (moments db)))
      by (rewrite E; now left).
    apply filter_In in Hin as [Hin Hid]. now apply Z.eqb_eq in Hid.
Qed.

(** The rows of the tables have ids of the column type. *)
Lemma moment_row_int4 db m : In m (moments db) -> int4 (m_id m) = true.
Proof. intros H. now apply filter_In in H. Qed.

Lemma media_row_int4 db r : In r (moment_media db) -> int4 (md_id r) = true.
Proof. intros H. now apply filter_In in H. Qed.

Lemma tag_row_int4 db t : In t (tags db) -> int4 (t_id t) = true.
Proof. intros H. now apply filter_In in H. Qed.

Lemma moment_exists_int4 db id : Spec.moment_exists db id -> int4 id = true.
Proof. intros (m & Hm & <-). exact (moment_row_int4 db m Hm). Qed.


Lemma get_missing db id :
  int4 id = true ->
  ~ Spec.moment_exists db id ->
  get db id = Throw (NotFoundError ("No moment: " ++ show_Z id)).
Proof.
  intros Hr H. apply rows_with_id_none in H.
  unfold get, select_moment. now rewrite Hr, H.
Qed.

Lemma get_out_of_range db id :
  int4 id = false -> get db id = out_of_range.
Proof. intros Hr. unfold get, select_moment. now rewrite Hr. Qed.

(** An update that keeps the ids commutes with reading the rows. *)
Lemma moments_set_moments db (g : moment_row -> moment_row) :
  (forall m, m_id (g m) = m_id m) ->
  moments (set_moments db (map g (moments_entries db))) = map g (moments db).
Proof.
  intros Hg. unfold moments, set_moments. cbn [moments_entries].
  induction (moments_entries db) as [|m ms IH]; cbn [map filter]; [reflexivity|].
  rewrite Hg. destruct (int4 (m_id m)); cbn [map]; now rewrite IH.
Qed.

(** With at least one field supplied, the statement of [update] is
    well formed and does what the payload says. *)
Lemma update_supplied db id data :
  Spec.supplied data = true ->
  int4 id = true ->
  update db id data
  = (set_moments db
       (map (fun m => if (m_id m =? id)%Z then Spec.patched data m else m)
            (moments_entries db)),
     match map (Spec.patched data)
               (filter (fun m => (m_id m =? id)%Z) (moments db)) with
     | [] => Throw (NotFoundError ("No moment: " ++ show_Z id))
     | moment :: _ => Return moment
     end).
Proof.
  destruct data as [[ti|] [tx|] [dt|]]; intros H Hr; try discriminate H;
    unfold update; cbn -[int4 moments]; rewrite Hr;
    destruct (filter (fun m => (m_id m =? id)%Z) (moments db)); reflexivity.
Qed.

Lemma update_out_of_range db id data :
  Spec.supplied data = true ->
  int4 id = false ->
  update db id data = (db, out_of_range).
Proof.
  destruct data as [[ti|] [tx|] [dt|]]; intros H Hr; try discriminate H;
    unfold update; cbn -[int4 moments]; rewrite Hr; reflexivity.
Qed.


Lemma remove_missing db id :
  int4 id = true ->
  ~ Spec.moment_exists db id ->
  remove db id = (db, Throw (NotFoundError ("No moment: " ++ show_Z id))).
Proof.
  intros Hr H. apply rows_with_id_none in H.
  unfold remove, delete_moment. now rewrite Hr, H.
Qed.

End KeyFacts.

(** ** Claims about [Moment.findAll] *)





(** C9.  For every username and every combination of filters, the list
    that [Moment.findAll] returns is sorted by date in descending order:
    each row is at least as recent as all rows after it.  A list is
    returned whenever the user exists. *)
Theorem findAll_newest_first db u f :
  (Spec.user_exists db u -> returns (Moment.findAll db u f) = true)
  /\ (forall rows,
         Moment.findAll db u f = Return rows ->
         StronglySorted Spec.newest_first rows).
Proof.
  split.
  - intros Hex.
    now rewrite (findAll_of_user db u f Hex), select_moments_findAll_query.
  - intros rows E.
    destruct (in_dec string_dec u (users db)) as [Hex|Hno].
    + rewrite (findAll_of_user db u f Hex), select_moments_findAll_query in E.
      injection E as <-. apply order_by_date_desc_sorted.
    + rewrite (findAll_no_user db u f Hno) in E. discriminate E.
Qed.

(** Ann's moments come back with the storm (the later one) first. *)
Lemma findAll_newest_first_witness :
  Spec.user_exists Sample.journal "ann"
  /\ exists rows,
       Moment.findAll Sample.journal "ann" Sample.no_filters = Return rows
       /\ map r_id rows = [2; 1]%Z
       /\ StronglySorted Spec.newest_first rows.
Proof.
  assert (H : Spec.user_exists Sample.journal "ann") by (left; reflexivity).
  split; [exact H|].
  destruct (findAll_newest_first Sample.journal "ann" Sample.no_filters)
    as [_ Hsorted].
  eexists. split; [reflexivity|]. split; [reflexivity|].
  apply Hsorted. reflexivity.
Defined.

(** C5.  For every username and every combination of search filters, the
    statement built by [Moment.findAll] is parameterized: the parameter
    array holds exactly the supplied values in the order in which they
    are pushed (username, wrapped title, wrapped text, start, end, tag);
    the placeholders in the text are [$1 .. $n], left to right, for the
    [n] values of the array; read back, each condition of the [WHERE]
    clause is bound to the value of its own filter and the [HAVING]
    placeholder to the tag; and the text is the same whatever the values
    are, since it does not change when every supplied value is replaced
    by a fixed one. *)
Theorem findAll_query_parameterized u f :
  snd (Moment.findAll_query u f) = Spec.pushed_values u f
  /\ Spec.placeholders_in (fst (Moment.findAll_query u f))
     = seq 1 (List.length (snd (Moment.findAll_query u f)))
  /\ (exists stmt,
        parse_select_moments (fst (Moment.findAll_query u f)) = Some stmt
        /\ bind_where (snd (Moment.findAll_query u f)) (q_where stmt)
           = Some (Spec.intended_conds u f)
        /\ bind_having (snd (Moment.findAll_query u f)) (q_having stmt)
           = Some (Moment.tag f))
  /\ fst (Moment.findAll_query u f)
     = fst (Moment.findAll_query (Spec.blank_username u) (Spec.blank_filters f)).
Proof.
  split; [apply findAll_query_values|].
  split; [apply findAll_query_placeholders|].
  split; [|apply findAll_query_blank].
  destruct (findAll_query_reads_back u f) as (stmt & Hp & _ & Hw & Hh).
  exists stmt. auto.
Qed.




(** ** Claims about lookup by key, update and deletion *)







Lemma filter_all {A} (p : A -> bool) l :
  (forall x, In x l -> p x = true) -> filter p l = l.
Proof.
  induction l as [|a l IH]; simpl; intros H; [reflexivity|].
  rewrite (H a (or_introl eq_refl)), IH; [reflexivity|].
  intros x Hx. apply H. now right.
Qed.

Lemma removeMedia_effect db id :
  int4 id = true ->
  snd (Moment.removeMedia db id) = Return tt
  /\ Spec.same_but_media db (fst (Moment.removeMedia db id))
  /\ (forall r, In r (moment_media (fst (Moment.removeMedia db id)))
                <-> In r (moment_media db) /\ md_id r <> id)
  /\ (~ Spec.media_exists db id -> fst (Moment.removeMedia db id) = db).
Proof.
  intros Hr.
  unfold Moment.removeMedia, delete_media, Spec.same_but_media. rewrite Hr.
  cbn [fst snd].
  split; [reflexivity|]. split; [repeat split|]. split.
  - intros r. unfold moment_media. cbn [moment_media_entries].
    rewrite !filter_In, negb_true_iff, Z.eqb_neq. tauto.
  - intros Hno. destruct db as [us ms md ts mts]. cbn. f_equal.
    apply filter_all. intros r Hin.
    apply negb_true_iff, Z.eqb_neq. intros E. apply Hno. exists r.
    split; [|exact E]. unfold moment_media. cbn [moment_media_entries].
    apply filter_In. split; [exact Hin | now rewrite E].
Qed.

Lemma removeTag_effect db momentId tagId :
  int4 momentId = true ->
  int4 tagId = true ->
  snd (Moment.removeTag db momentId tagId) = Return tt
  /\ Spec.same_but_taggings db (fst (Moment.removeTag db momentId tagId))
  /\ (forall mt, In mt (moments_tags (fst (Moment.removeTag db momentId tagId)))
                 <-> In mt (moments_tags db)
                     /\ ~ (mt_moment_id mt = momentId /\ mt_tag_id mt = tagId))
  /\ (~ Spec.tagged db momentId tagId ->
      fst (Moment.removeTag db momentId tagId) = db).
Proof.
  intros Hm Ht.
  assert (Hkey : forall mt,
             negb ((mt_moment_id mt =? momentId)%Z && (mt_tag_id mt =? tagId)%Z) = true
             <-> ~ (mt_moment_id mt = momentId /\ mt_tag_id mt = tagId)).
  { intros mt. rewrite negb_true_iff, andb_false_iff, !Z.eqb_neq. lia. }
  unfold Moment.removeTag, delete_moment_tag, Spec.same_but_taggings.
  rewrite Hm, Ht. cbn [andb fst snd].
  split; [reflexivity|]. split; [repeat split|]. split.
  - intros mt. cbn [moments_tags]. rewrite filter_In, Hkey. reflexivity.
  - intros Hno. destruct db as [us ms md ts mts]. cbn. f_equal.
    apply filter_all. intros mt Hmt. apply Hkey.
    intros [E1 E2]. apply Hno. now exists mt.
Qed.

(** C10, as amended.  For ids that are values of the integer columns,
    [Moment.removeMedia] and [Moment.removeTag] do not throw, whether or
    not a row matches: they return [undefined], the table they delete
    from keeps exactly the rows that do not match, the other tables are
    untouched, and when no row matches the database is left as it was.
    [Moment.remove], unlike them, throws [NotFoundError] when no moment
    has the id. *)
Theorem removeMedia_removeTag_never_throw db momentMediaId momentId tagId :
  int4 momentMediaId = true ->
  int4 momentId = true ->
  int4 tagId = true ->
  (snd (Moment.removeMedia db momentMediaId) = Return tt
   /\ Spec.same_but_media db (fst (Moment.removeMedia db momentMediaId))
   /\ (forall r, In r (moment_media (fst (Moment.removeMedia db momentMediaId)))
                 <-> In r (moment_media db) /\ md_id r <> momentMediaId)
   /\ (~ Spec.media_exists db momentMediaId ->
       fst (Moment.removeMedia db momentMediaId) = db))
  /\ (snd (Moment.removeTag db momentId tagId) = Return tt
      /\ Spec.same_but_taggings db (fst (Moment.removeTag db momentId tagId))
      /\ (forall mt, In mt (moments_tags (fst (Moment.removeTag db momentId tagId)))
                     <-> In mt (moments_tags db)
                         /\ ~ (mt_moment_id mt = momentId /\ mt_tag_id mt = tagId))
      /\ (~ Spec.tagged db momentId tagId ->
          fst (Moment.removeTag db momentId tagId) = db))
  /\ (~ Spec.moment_exists db momentId ->
      is_not_found (snd (Moment.remove db momentId)) = true).
Proof.
  intros Hd Hm Ht.
  split; [now apply removeMedia_effect|].
  split; [now apply removeTag_effect|].
  intros H. now rewrite (remove_missing db momentId Hm H).
Qed.

(** Removing what is not there: media 9, the tagging of moment 9 with
    tag 2, and moment 9. *)
Lemma removeMedia_removeTag_never_throw_witness :
  (int4 9 = true /\ int4 2 = true)
  /\ ~ Spec.media_exists Sample.journal 9
  /\ ~ Spec.tagged Sample.journal 9 2
  /\ ~ Spec.moment_exists Sample.journal 9
  /\ Moment.removeMedia Sample.journal 9 = (Sample.journal, Return tt)
  /\ Moment.removeTag Sample.journal 9 2 = (Sample.journal, Return tt)
  /\ is_not_found (snd (Moment.remove Sample.journal 9)) = true.
Proof.
  assert (R9 : int4 9 = true) by reflexivity.
  assert (R2 : int4 2 = true) by reflexivity.
  assert (H1 : ~ Spec.media_exists Sample.journal 9).
  { intros (r & Hin & E). cbn in Hin.
    destruct Hin as [<-|[]]. discriminate E. }
  assert (H2 : ~ Spec.tagged Sample.journal 9 2).
  { intros (mt & Hin & E1 & E2). cbn in Hin.
    destruct Hin as [<-|[<-|[<-|[]]]]; discriminate E1 || discriminate E2. }
  assert (H3 : ~ Spec.moment_exists Sample.journal 9).
  { intros (m & Hin & E). cbn in Hin.
    destruct Hin as [<-|[<-|[<-|[]]]]; discriminate E. }
  destruct (removeMedia_removeTag_never_throw Sample.journal 9 9 2 R9 R9 R2)
    as ((R1 & _ & _ & K1) & (R2' & _ & _ & K2) & K3).
  refine (conj (conj R9 R2) (conj H1 (conj H2 (conj H3 (conj _ (conj _ (K3 H3))))))).
  - rewrite (surjective_pairing (Moment.removeMedia Sample.journal 9)).
    rewrite R1, (K1 H1). reflexivity.
  - rewrite (surjective_pairing (Moment.removeTag Sample.journal 9 2)).
    rewrite R2', (K2 H2). reflexivity.
Defined.

(** C10 as stated fails for an id that the integer column cannot hold:
    no media row has id 2147483648 and moment 1 is not tagged with tag
    2147483648, yet [removeMedia] and [removeTag] throw the engine's
    error for the value. *)
Lemma removeMedia_removeTag_out_of_range :
  (~ Spec.media_exists Sample.journal 2147483648
   /\ returns (snd (Moment.removeMedia Sample.journal 2147483648)) = false)
  /\ (~ Spec.tagged Sample.journal 1 2147483648
      /\ returns (snd (Moment.removeTag Sample.journal 1 2147483648)) = false).
Proof.
  split; (split; [|reflexivity]).
  - intros (r & Hin & E). apply media_row_int4 in Hin. rewrite E in Hin.
    discriminate Hin.
  - intros (mt & Hin & _ & E). cbn in Hin.
    destruct Hin as [<-|[<-|[<-|[]]]]; discriminate E.
Qed.

(** C4: the code does not do what the claim says.  [Moment.addMedia]
    never returns a row: whatever the engine answers to the INSERT, the
    call ends in a thrown error, either the engine's own or the
    [ReferenceError] of reading the undeclared [results].  At the sample
    input the engine rejects the statement for its quoted alias: that
    error is thrown and nothing is inserted. *)
Theorem addMedia_never_returns :
  (forall run db momentId data,
      returns (snd (Moment.addMedia_on run db momentId data)) = false)
  /\ (forall db momentId data,
         returns (snd (Moment.addMedia db momentId data)) = false)
  /\ Moment.addMedia Sample.journal 1 Sample.photo
     = (Sample.journal, Throw (DbError "syntax error at or near 'momentId'")).
Proof.
  assert (H : forall run db momentId data,
             returns (snd (Moment.addMedia_on run db momentId data)) = false).
  { intros run db momentId data. unfold Moment.addMedia_on.
    destruct (run db _) as [db' [rows|e]]; reflexivity. }
  split; [exact H|].
  split; [intros; apply H | reflexivity].
Qed.

Section AuthFacts.
Import Auth.

Lemma strict_eq_true a b : strict_eq a b = true <-> a = b.
Proof.
  destruct a as [x|], b as [y|]; simpl; try (split; congruence).
  rewrite String.eqb_eq. split; congruence.
Qed.

Lemma strict_eq_false a b : strict_eq a b = false <-> a <> b.
Proof.
  rewrite <- strict_eq_true. destruct (strict_eq a b); split; congruence.
Qed.

Lemma strip_prefix_app p s : strip_prefix p (p ++ s) = Some s.
Proof.
  induction p as [|c p IH]; simpl; [reflexivity|].
  now rewrite Ascii.eqb_refl.
Qed.

Lemma strip_bearer_prefix t :
  strip_bearer ("Bearer " ++ t) = t /\ strip_bearer ("bearer " ++ t) = t.
Proof.
  split; unfold strip_bearer.
  - now rewrite (strip_prefix_app "Bearer " t).
  - change (strip_prefix "Bearer " ("bearer " ++ t)) with (@None string).
    now rewrite (strip_prefix_app "bearer " t).
Qed.

Lemma strip_bearer_other h :
  strip_prefix "Bearer " h = None -> strip_prefix "bearer " h = None ->
  strip_bearer h = h.
Proof. intros H1 H2. unfold strip_bearer. now rewrite H1, H2. Qed.

End AuthFacts.

(** ** Claims about the middleware *)

(** C2, as amended.  For every request whose route parameter [username]
    is a non-empty string or whose body has been parsed,
    [ensureCorrectUser] passes [UnauthorizedError] to [next] if and only
    if there is no authenticated user or the user's username differs
    from the username to compare with: the route parameter when it is
    non-empty, the body's [username] otherwise.  When it does not, it
    calls [next()] and the request is unchanged. *)
Theorem ensureCorrectUser_denies_wrong_user req :
  truthy_opt (Auth.params_username (Auth.req_params req)) = true
  \/ Auth.req_body req <> None ->
  (Spec.denied (Auth.ensureCorrectUser req)
   <-> Spec.wrong_user req (Spec.username_if_truthy req))
  /\ (~ Spec.denied (Auth.ensureCorrectUser req) ->
      Auth.ensureCorrectUser req = (req, Auth.Next)).
Proof.
  intros Hsrc.
  unfold Spec.denied, Spec.wrong_user, Spec.username_if_truthy, Auth.ensureCorrectUser.
  destruct (Auth.req_user req) as [user|].
  - assert (Hcmp : forall target,
               (snd (if strict_eq (Auth.username user) target
                     then (req, Auth.Next)
                     else (req, Auth.NextErr UnauthorizedError))
                = Auth.NextErr UnauthorizedError
                <-> (Some user = None
                     \/ exists user0 : Auth.payload,
                         Some user = Some user0 /\ Auth.username user0 <> target))
               /\ (snd (if strict_eq (Auth.username user) target
                        then (req, Auth.Next)
                        else (req, Auth.NextErr UnauthorizedError))
                   <> Auth.NextErr UnauthorizedError ->
                   (if strict_eq (Auth.username user) target
                    then (req, Auth.Next)
                    else (req, Auth.NextErr UnauthorizedError))
                   = (req, Auth.Next))).
    { intros target. destruct (strict_eq (Auth.username user) target) eqn:E.
      - apply strict_eq_true in E. cbn. split; [|reflexivity].
        split; [discriminate|].
        intros [H|(u0 & H & Hne)]; [discriminate|].
        injection H as <-. contradiction.
      - apply strict_eq_false in E. cbn. split; [|intros H; now elim H].
        split; [|reflexivity]. intros _. right. now exists user. }
    destruct (truthy_opt (Auth.params_username (Auth.req_params req))) eqn:Et.
    + apply Hcmp.
    + destruct (Auth.req_body req) as [b|].
      * apply Hcmp.
      * destruct Hsrc as [H|H]; [discriminate | now elim H].
  - cbn. split.
    + split; [now left | reflexivity].
    + intros H. now elim H.
Qed.

(** Ann is let through to her own route. *)
Lemma ensureCorrectUser_denies_wrong_user_witness :
  (truthy_opt (Auth.params_username (Auth.req_params Sample.ann_own_route)) = true
   \/ Auth.req_body Sample.ann_own_route <> None)
  /\ ~ Spec.denied (Auth.ensureCorrectUser Sample.ann_own_route)
  /\ Auth.ensureCorrectUser Sample.ann_own_route = (Sample.ann_own_route, Auth.Next).
Proof.
  assert (H : truthy_opt (Auth.params_username (Auth.req_params Sample.ann_own_route)) = true
              \/ Auth.req_body Sample.ann_own_route <> None)
    by (left; reflexivity).
  assert (Hn : ~ Spec.denied (Auth.ensureCorrectUser Sample.ann_own_route))
    by (intros E; discriminate E).
  refine (conj H (conj Hn _)).
  exact (proj2 (ensureCorrectUser_denies_wrong_user Sample.ann_own_route H) Hn).
Defined.

(** C2 as stated fails in two ways: with an empty route parameter the
    user is checked against the body and denied although the parameter
    equals the user's name; and without a route parameter or a body the
    error handed to [next] is a [TypeError]. *)
Lemma ensureCorrectUser_empty_param_and_no_body :
  ~ (Spec.denied (Auth.ensureCorrectUser Sample.empty_param)
     <-> Spec.wrong_user Sample.empty_param
           (Spec.username_if_present Sample.empty_param))
  /\ ~ (Spec.denied (Auth.ensureCorrectUser Sample.no_body)
        <-> Spec.wrong_user Sample.no_body
              (Spec.username_if_present Sample.no_body)).
Proof.
  split.
  - intros [H _].
    destruct (H eq_refl) as [E|(u & E & Hne)]; [discriminate E|].
    injection E as <-. now apply Hne.
  - intros [_ H].
    assert (E : Spec.denied (Auth.ensureCorrectUser Sample.no_body)).
    { apply H. right. exists Sample.ann. split; [reflexivity | discriminate]. }
    discriminate E.
Qed.

(** C6, as amended.  Given that the verifier rejects the empty token,
    for every request [authenticateJWT] always calls [next()] without an
    error; it removes a leading [Bearer ] or [bearer ] from the
    Authorization header (only the first letter may be in either case;
    any other header is taken whole), trims the rest, verifies it
    against [SECRET_KEY], and stores the payload on [req.user] exactly
    when the header is there and verification succeeds; otherwise the
    request continues as it came. *)
Theorem authenticateJWT_stores_verified_payload SECRET_KEY jwt_verify req :
  jwt_verify "" SECRET_KEY = None ->
  snd (Auth.authenticateJWT SECRET_KEY jwt_verify req) = Auth.Next
  /\ fst (Auth.authenticateJWT SECRET_KEY jwt_verify req)
     = Spec.authenticated Auth.strip_bearer SECRET_KEY jwt_verify req
  /\ (forall t, Auth.strip_bearer ("Bearer " ++ t) = t
                /\ Auth.strip_bearer ("bearer " ++ t) = t)
  /\ (forall h, strip_prefix "Bearer " h = None ->
                strip_prefix "bearer " h = None ->
                Auth.strip_bearer h = h).
Proof.
  intros Hempty.
  unfold Auth.authenticateJWT, Spec.authenticated, Spec.header_of.
  split; [|split; [|split; [apply strip_bearer_prefix | apply strip_bearer_other]]].
  - destruct (Auth.req_headers req) as [[[h|]]|];
      cbn [Auth.authorization]; try reflexivity.
    destruct (truthy h); [|reflexivity].
    now destruct (jwt_verify (trim (Auth.strip_bearer h)) SECRET_KEY).
  - destruct (Auth.req_headers req) as [[[h|]]|];
      cbn [Auth.authorization]; try reflexivity.
    destruct h as [|c h]; cbn [truthy].
    + change (trim (Auth.strip_bearer "")) with "". now rewrite Hempty.
    + now destruct (jwt_verify (trim (Auth.strip_bearer (String c h))) SECRET_KEY).
Qed.

(** A lower-case prefix is removed and the token accepted. *)
Lemma authenticateJWT_stores_verified_payload_witness :
  Sample.verify_one "" "s3cret" = None
  /\ Auth.authenticateJWT "s3cret" Sample.verify_one
       (Sample.with_header "bearer abc.def.ghi")
     = (Auth.set_user (Sample.with_header "bearer abc.def.ghi") Sample.ann, Auth.Next).
Proof.
  assert (H : Sample.verify_one "" "s3cret" = None) by reflexivity.
  split; [exact H|].
  destruct (authenticateJWT_stores_verified_payload
              "s3cret" Sample.verify_one (Sample.with_header "bearer abc.def.ghi") H)
    as (Hn & Hr & _).
  rewrite (surjective_pairing (Auth.authenticateJWT _ _ _)), Hn, Hr.
  reflexivity.
Defined.

(** C6 as stated fails for a prefix in capitals: the token behind it is
    valid, but the header is verified whole and nothing is stored. *)
Lemma authenticateJWT_upper_case_prefix_kept :
  Sample.verify_one "" "s3cret" = None
  /\ fst (Auth.authenticateJWT "s3cret" Sample.verify_one
            (Sample.with_header "BEARER abc.def.ghi"))
     <> Spec.authenticated Spec.strip_bearer_any_case "s3cret" Sample.verify_one
          (Sample.with_header "BEARER abc.def.ghi").
Proof.
  split; [reflexivity|]. vm_compute. discriminate.
Qed.

(** ** Claims about the API client *)

(** C8, as amended.  For every failed request whose error carries a
    response with [data.error.message], the value thrown to the caller
    is an array: the server's message itself when it is an array, and a
    one-element array that holds it otherwise. *)
Theorem request_rethrows_server_message
        BASE_URL token axios endpoint data method response message :
  axios (Api.request_config BASE_URL token endpoint data method)
  = Api.Rejected response ->
  Api.error_message response = Some message ->
  Api.request BASE_URL token axios endpoint data method
  = Api.Thrown (Spec.as_array message)
  /\ Spec.throws_array (Api.request BASE_URL token axios endpoint data method)
  /\ (Api.isArray message = true -> Spec.as_array message = message)
  /\ (Api.isArray message = false -> Spec.as_array message = Api.JArr [message]).
Proof.
  intros Hrej Hmsg. unfold Api.request, Spec.throws_array, Spec.as_array.
  rewrite Hrej, Hmsg.
  split; [reflexivity|]. split.
  - destruct message; cbn; eauto.
  - split; intros E; now rewrite E.
Qed.

(** A 404 with a single message is thrown as a one-element array. *)
Lemma request_rethrows_server_message_witness :
  (Sample.axios_404 (Api.request_config "http://localhost:3001" (Some "tok")
                                         "moments/7" (Api.JObj []) "get")
   = Api.Rejected
       (Api.JObj
          [("status", Api.JNum 404);
           ("data",
            Api.JObj
              [("error",
                Api.JObj [("message", Api.JStr "No moment: 7");
                          ("status", Api.JNum 404)])])])
   /\ Api.error_message
        (Api.JObj
           [("status", Api.JNum 404);
            ("data",
             Api.JObj
               [("error",
                 Api.JObj [("message", Api.JStr "No moment: 7");
                           ("status", Api.JNum 404)])])])
      = Some (Api.JStr "No moment: 7"))
  /\ Api.request "http://localhost:3001" (Some "tok") Sample.axios_404
       "moments/7" (Api.JObj []) "get"
     = Api.Thrown (Api.JArr [Api.JStr "No moment: 7"]).
Proof.
  assert (H1 : Sample.axios_404
                 (Api.request_config "http://localhost:3001" (Some "tok")
                                     "moments/7" (Api.JObj []) "get")
               = Api.Rejected
                   (Api.JObj
                      [("status", Api.JNum 404);
                       ("data",
                        Api.JObj
                          [("error",
                            Api.JObj [("message", Api.JStr "No moment: 7");
                                      ("status", Api.JNum 404)])])]))
    by reflexivity.
  assert (H2 : Api.error_message
                 (Api.JObj
                    [("status", Api.JNum 404);
                     ("data",
                      Api.JObj
                        [("error",
                          Api.JObj [("message", Api.JStr "No moment: 7");
                                    ("status", Api.JNum 404)])])])
               = Some (Api.JStr "No moment: 7"))
    by reflexivity.
  split; [split; assumption|].
  exact (proj1 (request_rethrows_server_message
                  "http://localhost:3001" (Some "tok") Sample.axios_404
                  "moments/7" (Api.JObj []) "get" _ _ H1 H2)).
Defined.

(** C8 as stated fails when no response arrives: what is thrown is the
    [TypeError] of reading [err.response.data]. *)
Lemma request_without_response_throws_no_array :
  Sample.axios_offline
    (Api.request_config "http://localhost:3001" None "moments/7" (Api.JObj []) "get")
  = Api.Rejected Api.JUndefined
  /\ ~ Spec.throws_array
       (Api.request "http://localhost:3001" None Sample.axios_offline
                    "moments/7" (Api.JObj []) "get").
Proof.
  split; [reflexivity|]. intros (items & E). discriminate E.
Qed.

(* ===================================================================== *)
(** * Further properties *)
(* ===================================================================== *)

Section GetFacts.
Import Moment.

(** What [get] returns for an id that some row has. *)
Lemma get_unfold db id m r :
  filter (fun m => (m_id m =? id)%Z) (moments db) = m :: r ->
  get db id
  = Return {| g_moment := m;
              g_media := map Usage.item_of
                           (filter (fun x => (md_moment_id x =? m_id m)%Z)
                                   (moment_media db));
              g_tags := flat_map
                          (fun t =>
                             map (fun _ => t)
                                 (filter (fun mt => (t_id t =? mt_tag_id mt)%Z
                                                    && (mt_moment_id mt =? m_id m)%Z)
                                         (moments_tags db)))
                          (tags db) |}.
Proof.
  intros E.
  assert (Hin : In m (filter (fun m => (m_id m =? id)%Z) (moments db)))
    by (rewrite E; now left).
  apply filter_In in Hin as [Hm Hid]. apply Z.eqb_eq in Hid.
  pose proof (moment_row_int4 db m Hm) as Hr.
  unfold get, select_moment, select_media, select_tags.
  rewrite <- Hid at 1. rewrite Hr, E, Hr. reflexivity.
Qed.

Lemma get_inv db id d :
  get db id = Return d ->
  exists m r, filter (fun m => (m_id m =? id)%Z) (moments db) = m :: r
              /\ In m (moments db) /\ m_id m = id.
Proof.
  intros E.
  destruct (int4 id) eqn:Hr;
    [|rewrite (get_out_of_range db id Hr) in E; discriminate E].
  destruct (filter (fun m => (m_id m =? id)%Z) (moments db)) as [|m r] eqn:F.
  - apply rows_with_id_none in F. rewrite (get_missing db id Hr F) in E.
    discriminate E.
  - exists m, r. split; [reflexivity|].
    assert (Hin : In m (filter (fun m => (m_id m =? id)%Z) (moments db)))
      by (rewrite F; now left).
    apply filter_In in Hin as [Hin Hid]. now apply Z.eqb_eq in Hid.
Qed.

Lemma joined_tags_of_id_in db id t :
  In t (flat_map
          (fun t =>
             map (fun _ => t)
                 (filter (fun mt => (t_id t =? mt_tag_id mt)%Z
                                    && (mt_moment_id mt =? id)%Z)
                         (moments_tags db)))
          (tags db))
  <-> In t (tags db) /\ Spec.tagged db id (t_id t).
Proof.
  rewrite in_flat_map. unfold Spec.tagged. split.
  - intros (t' & Ht' & Hin). apply in_map_iff in Hin as (mt & <- & Hmt).
    apply filter_In in Hmt as [Hmt Hk].
    apply andb_true_iff in Hk as [H1 H2].
    apply Z.eqb_eq in H1, H2. split; [exact Ht'|]. exists mt. auto.
  - intros (Ht & mt & Hmt & H1 & H2). exists t. split; [exact Ht|].
    apply in_map_iff. exists mt. split; [reflexivity|].
    apply filter_In. split; [exact Hmt|].
    apply andb_true_iff. split; apply Z.eqb_eq; congruence.
Qed.

End GetFacts.

(** X1.  When [Moment.get] returns, the moment it returns is a row of
    the table with the id asked for, its [media] are exactly the
    [id], [url] and [type] of the media rows attached to that id, and its
    [tags] are exactly the tags linked to that id in [moments_tags]. *)
Theorem get_returns_moment_with_its_media_and_tags db id d :
  Moment.get db id = Return d ->
  In (Moment.g_moment d) (moments db)
  /\ m_id (Moment.g_moment d) = id
  /\ (forall mi, In mi (Moment.g_media d)
                 <-> exists r, In r (moment_media db)
                               /\ md_moment_id r = id /\ mi = Usage.item_of r)
  /\ (forall t, In t (Moment.g_tags d)
                <-> In t (tags db) /\ Spec.tagged db id (t_id t)).
Proof.
  intros E. destruct (get_inv db id d E) as (m & r & F & Hin & Hid).
  rewrite (get_unfold db id m r F) in E. injection E as <-.
  cbn [Moment.g_moment Moment.g_media Moment.g_tags]. rewrite Hid.
  split; [exact Hin|]. split; [reflexivity|]. split.
  - intros mi. rewrite in_map_iff. split.
    + intros (x & <- & Hx). apply filter_In in Hx as [Hx Hk].
      apply Z.eqb_eq in Hk. now exists x.
    + intros (x & Hx & Hk & ->). exists x. split; [reflexivity|].
      apply filter_In. split; [exact Hx | now apply Z.eqb_eq].
  - intros t. apply joined_tags_of_id_in.
Qed.

(** The picnic of the scrapbook, with its two media and its tags. *)
Lemma get_returns_moment_with_its_media_and_tags_witness :
  exists d,
    Moment.get Usage.scrapbook 1 = Return d
    /\ Moment.g_moment d = Sample.picnic
    /\ map mi_id (Moment.g_media d) = [1; 2]%Z
    /\ (forall t, In t (Moment.g_tags d)
                  <-> In t (tags Usage.scrapbook)
                      /\ Spec.tagged Usage.scrapbook 1 (t_id t)).
Proof.
  eexists. split; [reflexivity|]. split; [reflexivity|]. split; [reflexivity|].
  exact (proj2 (proj2 (proj2
           (get_returns_moment_with_its_media_and_tags Usage.scrapbook 1 _ eq_refl)))).
Defined.

Section SearchFacts.
Import Moment.

(** The rows of a search that returned are the grouped rows of the
    moments that pass the [WHERE] conditions and the [HAVING] test. *)
Lemma findAll_row_inv db u f rows r :
  findAll db u f = Return rows ->
  In r rows ->
  exists m,
    In m (moments db) /\ r = group_row db m
    /\ eval_where m (Spec.intended_conds u f) = Some true
    /\ having_ok db (tag f) m = true.
Proof.
  intros E Hr.
  destruct (in_dec string_dec u (users db)) as [Hex|Hno].
  - rewrite (findAll_of_user db u f Hex), select_moments_findAll_query in E.
    injection E as <-.
    apply (Permutation_in _ (order_by_date_desc_perm _)) in Hr.
    apply in_map_iff in Hr as (m & <- & Hm).
    apply filter_In in Hm as [Hm Hh]. apply filter_In in Hm as [Hm Hw].
    exists m. repeat split; try assumption.
    destruct (eval_where m (Spec.intended_conds u f)) as [[]|];
      [reflexivity | discriminate Hw | discriminate Hw].
  - rewrite (findAll_no_user db u f Hno) in E. discriminate E.
Qed.

Lemma eval_where_app_true m cs1 cs2 :
  eval_where m (cs1 ++ cs2) = Some true ->
  eval_where m cs1 = Some true /\ eval_where m cs2 = Some true.
Proof.
  revert cs2. induction cs1 as [|c cs1 IH]; intros cs2 E; cbn [app eval_where] in *.
  - now split.
  - destruct (eval_cond m c) as [b|]; [|discriminate E].
    destruct (eval_where m (cs1 ++ cs2)) as [b'|] eqn:E'; [|discriminate E].
    injection E as E. apply andb_true_iff in E as [-> ->].
    destruct (IH cs2 E') as [-> ->]. now split.
Qed.

Lemma eval_intended_sound u f m :
  eval_where m (Spec.intended_conds u f) = Some true ->
  (u <> "" -> m_username m = u)
  /\ (forall a, dateStart f = Some a -> (a <= m_date m)%Z)
  /\ (forall b, dateEnd f = Some b -> (m_date m <= b)%Z).
Proof.
  unfold Spec.intended_conds.
  destruct f as [tg ti tx ds de].
  cbn [Moment.title Moment.text Moment.dateStart Moment.dateEnd Moment.tag].
  intros H.
  apply eval_where_app_true in H as [Hu H].
  apply eval_where_app_true in H as [_ H].
  apply eval_where_app_true in H as [_ H].
  apply eval_where_app_true in H as [Hs He].
  repeat split.
  - intros Hne. destruct u as [|c u]; [congruence|].
    cbn in Hu. destruct (String.eqb (m_username m) (String c u)) eqn:Eu;
      [now apply String.eqb_eq in Eu | discriminate Hu].
  - intros a [= ->]. cbn in Hs.
    destruct (a <=? m_date m)%Z eqn:Ea; [lia | discriminate Hs].
  - intros b [= ->]. cbn in He.
    destruct (m_date m <=? b)%Z eqn:Eb; [lia | discriminate He].
Qed.

Lemma having_sound db f m t :
  having_ok db (tag f) m = true ->
  tag f = Some t ->
  In t (map t_name (r_tags (group_row db m))).
Proof.
  intros H E. rewrite E in H. cbn [having_ok] in H.
  rewrite any_name_tag_names in H.
  apply existsb_exists in H as (x & Hx & Hk).
  apply String.eqb_eq in Hk. now subst.
Qed.

Lemma in_agg_tags t js : In t (agg_tags js) <-> In (Some t) js.
Proof.
  induction js as [|[x|] js IH]; cbn.
  - reflexivity.
  - rewrite IH. split; intros [H|H]; auto; left; congruence.
  - rewrite IH. split; [auto | intros [H|H]; [discriminate H | exact H]].
Qed.

Lemma in_some_or_null (t : tag_row) (l : list tag_row) :
  In (Some t) (match l with [] => [None] | x :: l' => map Some (x :: l') end)
  <-> In t l.
Proof.
  destruct l as [|x l].
  - cbn. split; [intros [H|[]]; discriminate H | intros []].
  - rewrite in_map_iff. split.
    + intros (y & [= ->] & Hy). exact Hy.
    + intros H. now exists t.
Qed.

(** The tags aggregated for a moment are the tags linked to its id. *)
Lemma in_group_row_tags db m t :
  In t (r_tags (group_row db m))
  <-> In t (tags db) /\ Spec.tagged db (m_id m) (t_id t).
Proof.
  cbn [group_row r_tags]. rewrite in_agg_tags. unfold joined_tags, Spec.tagged.
  destruct (filter (fun mt => (mt_moment_id mt =? m_id m)%Z) (moments_tags db))
    as [|mt0 mts] eqn:F.
  - split.
    + intros [H|[]]. discriminate H.
    + intros (_ & mt & Hmt & H1 & _).
      assert (Hin : In mt (filter (fun mt => (mt_moment_id mt =? m_id m)%Z)
                                  (moments_tags db))).
      { apply filter_In. split; [exact Hmt | now apply Z.eqb_eq]. }
      rewrite F in Hin. destruct Hin.
  - rewrite <- F. rewrite in_flat_map. split.
    + intros (mt & Hmt & Hin). apply filter_In in Hmt as [Hmt Hk].
      apply Z.eqb_eq in Hk. apply in_some_or_null in Hin.
      apply filter_In in Hin as [Hin Ht]. apply Z.eqb_eq in Ht.
      split; [exact Hin|]. exists mt. auto.
    + intros (Ht & mt & Hmt & H1 & H2). exists mt. split.
      * apply filter_In. split; [exact Hmt | now apply Z.eqb_eq].
      * apply in_some_or_null. apply filter_In. split; [exact Ht|].
        apply Z.eqb_eq. congruence.
Qed.

Lemma ilike_wrapped_empty s : ilike s (Spec.wrap "") = Some true.
Proof.
  rewrite (ilike_wrapped_substring s "" eq_refl).
  unfold Spec.contains_ci. cbn [lower]. now destruct (lower s).
Qed.

End SearchFacts.

(** X2.  Whatever the title and text patterns are, wildcards included,
    every row that [Moment.findAll] returns is built from a moment of the
    table that belongs to the user (for a non-empty username), lies
    within the date bounds that were given, and carries the tag that was
    given. *)
Theorem findAll_rows_keep_owner_dates_and_tag db u f rows r :
  Moment.findAll db u f = Return rows ->
  In r rows ->
  exists m,
    In m (moments db) /\ r = group_row db m
    /\ (u <> "" -> m_username m = u)
    /\ (forall a, Moment.dateStart f = Some a -> (a <= r_date r)%Z)
    /\ (forall b, Moment.dateEnd f = Some b -> (r_date r <= b)%Z)
    /\ (forall t, Moment.tag f = Some t -> In t (map t_name (r_tags r))).
Proof.
  intros E Hr.
  destruct (findAll_row_inv db u f rows r E Hr) as (m & Hm & -> & Hw & Hh).
  destruct (eval_intended_sound u f m Hw) as (Hu & Hs & He).
  exists m. repeat split; try assumption.
  intros t Ht. exact (having_sound db f m t Hh Ht).
Qed.

(** Under the pattern [_] the rows are still Ann's. *)
Lemma findAll_rows_keep_owner_dates_and_tag_witness :
  exists rows r,
    Moment.findAll Sample.journal "ann" Sample.title_underscore = Return rows
    /\ In r rows
    /\ exists m, In m (moments Sample.journal) /\ r = group_row Sample.journal m
                 /\ m_username m = "ann".
Proof.
  eexists. eexists. split; [reflexivity|]. split; [left; reflexivity|].
  destruct (findAll_rows_keep_owner_dates_and_tag
              Sample.journal "ann" Sample.title_underscore _ _ eq_refl
              (or_introl eq_refl))
    as (m & Hm & Hr & Hu & _).
  exists m. split; [exact Hm|]. split; [exact Hr|]. apply Hu. discriminate.
Defined.

(** X3.  The tags that [Moment.findAll] reports for a moment are the
    tags that [Moment.get] reports for the same id. *)
Theorem findAll_tags_agree_with_get db u f rows r d :
  Moment.findAll db u f = Return rows ->
  In r rows ->
  Moment.get db (r_id r) = Return d ->
  forall t, In t (r_tags r) <-> In t (Moment.g_tags d).
Proof.
  intros E Hr G t.
  destruct (findAll_row_inv db u f rows r E Hr) as (m & _ & -> & _).
  destruct (get_inv db _ d G) as (m' & rest & F & _ & Hid).
  rewrite (get_unfold db _ m' rest F) in G. injection G as <-.
  cbn [Moment.g_tags]. rewrite Hid.
  rewrite joined_tags_of_id_in, in_group_row_tags. reflexivity.
Qed.

(** The picnic row of the search and the picnic of [get] have the same tags. *)
Lemma findAll_tags_agree_with_get_witness :
  exists rows r d,
    Moment.findAll Usage.scrapbook "ann" Sample.no_filters = Return rows
    /\ In r rows
    /\ Moment.get Usage.scrapbook (r_id r) = Return d
    /\ map t_id (r_tags r) = [1; 2]%Z
    /\ forall t, In t (r_tags r) <-> In t (Moment.g_tags d).
Proof.
  eexists. eexists. eexists.
  split; [reflexivity|]. split; [right; left; reflexivity|].
  split; [reflexivity|]. split; [reflexivity|].
  exact (findAll_tags_agree_with_get Usage.scrapbook "ann" Sample.no_filters
           _ _ _ eq_refl (or_intror (or_introl eq_refl)) eq_refl).
Defined.

(** X4.  An empty string as title or text filter restricts nothing:
    [Moment.findAll] answers as it does without that filter. *)
Theorem findAll_empty_pattern_is_no_filter db u f :
  Moment.findAll db u (Usage.with_title f (Some ""))
  = Moment.findAll db u (Usage.with_title f None)
  /\ Moment.findAll db u (Usage.with_text f (Some ""))
     = Moment.findAll db u (Usage.with_text f None).
Proof.
  destruct (in_dec string_dec u (users db)) as [Hex|Hno].
  - rewrite !(findAll_of_user db u _ Hex), !select_moments_findAll_query.
    destruct f as [tg ti tx ds de].
    unfold Usage.with_title, Usage.with_text, Spec.intended_conds.
    cbn [Moment.title Moment.text Moment.dateStart Moment.dateEnd Moment.tag].
    split; do 4 f_equal; apply filter_ext; intros m;
      destruct (truthy u); [destruct tx | destruct tx | destruct ti | destruct ti];
      cbn [Spec.opt_list app eval_where eval_cond];
      rewrite ilike_wrapped_empty;
      repeat match goal with
             | |- context [ilike ?s ?p] => destruct (ilike s p)
             | |- context [eval_where ?m ?cs] => destruct (eval_where m cs)
             end;
      reflexivity.
  - now rewrite !(findAll_no_user db u _ Hno).
Qed.



Section CaseFacts.
Import Moment.

Lemma ilike_wrapped_lower s t1 t2 :
  lower t1 = lower t2 -> ilike s (Spec.wrap t1) = ilike s (Spec.wrap t2).
Proof.
  intros H. unfold ilike, Spec.wrap. rewrite !lower_app. now rewrite H.
Qed.

End CaseFacts.

(** X6.  Title and text filters that differ only in the case of their
    letters give the same answer of [Moment.findAll], wildcards or
    not. *)
Theorem findAll_ignores_case_of_patterns db u f t1 t2 :
  lower t1 = lower t2 ->
  Moment.findAll db u (Usage.with_title f (Some t1))
  = Moment.findAll db u (Usage.with_title f (Some t2))
  /\ Moment.findAll db u (Usage.with_text f (Some t1))
     = Moment.findAll db u (Usage.with_text f (Some t2)).
Proof.
  intros H.
  destruct (in_dec string_dec u (users db)) as [Hex|Hno].
  - rewrite !(findAll_of_user db u _ Hex), !select_moments_findAll_query.
    destruct f as [tg ti tx ds de].
    unfold Usage.with_title, Usage.with_text, Spec.intended_conds.
    cbn [Moment.title Moment.text Moment.dateStart Moment.dateEnd Moment.tag].
    split; do 4 f_equal; apply filter_ext; intros m;
      destruct (truthy u); [destruct tx | destruct tx | destruct ti | destruct ti];
      cbn [Spec.opt_list app eval_where eval_cond];
      rewrite (ilike_wrapped_lower _ t1 t2 H); reflexivity.
  - now rewrite !(findAll_no_user db u _ Hno).
Qed.

(** PICNIC and picnic find the same. *)
Lemma findAll_ignores_case_of_patterns_witness :
  lower "PICNIC" = lower "picnic"
  /\ Moment.findAll Sample.journal "ann"
       (Usage.with_title Sample.no_filters (Some "PICNIC"))
     = Moment.findAll Sample.journal "ann"
         (Usage.with_title Sample.no_filters (Some "picnic"))
  /\ returns (Moment.findAll Sample.journal "ann"
                (Usage.with_title Sample.no_filters (Some "PICNIC"))) = true.
Proof.
  refine (conj eq_refl (conj _ eq_refl)).
  exact (proj1 (findAll_ignores_case_of_patterns
                  Sample.journal "ann" Sample.no_filters "PICNIC" "picnic" eq_refl)).
Defined.

Section ComposeFacts.
Import Moment.

Lemma filter_filter_weaker {A} (p q : A -> bool) l :
  (forall x, p x = true -> q x = true) ->
  filter p (filter q l) = filter p l.
Proof.
  intros H. induction l as [|a l IH]; cbn; [reflexivity|].
  destruct (q a) eqn:Q; cbn.
  - now rewrite IH.
  - destruct (p a) eqn:P; [|exact IH].
    rewrite (H a P) in Q. discriminate Q.
Qed.

Lemma filter_none {A} (p : A -> bool) l :
  (forall x, In x l -> p x = false) -> filter p l = [].
Proof.
  induction l as [|a l IH]; cbn; intros H; [reflexivity|].
  rewrite (H a (or_introl eq_refl)). apply IH. intros x Hx. apply H. now right.
Qed.

Lemma filter_map_comm {A B} (g : A -> B) (p : B -> bool) l :
  filter p (map g l) = map g (filter (fun x => p (g x)) l).
Proof.
  induction l as [|a l IH]; cbn; [reflexivity|].
  destruct (p (g a)); cbn; now rewrite IH.
Qed.

Lemma filter_comm {A} (p q : A -> bool) l :
  filter p (filter q l) = filter q (filter p l).
Proof.
  induction l as [|a l IH]; cbn; [reflexivity|].
  destruct (q a) eqn:Q, (p a) eqn:P; cbn; rewrite ?Q, ?P, IH; reflexivity.
Qed.

(** [get] reads three things of the database: the rows of the id, the
    media of the id and the taggings of the id. *)
Lemma get_depends_on db db' id :
  filter (fun m => (m_id m =? id)%Z) (moments db')
  = filter (fun m => (m_id m =? id)%Z) (moments db) ->
  filter (fun x => (md_moment_id x =? id)%Z) (moment_media db')
  = filter (fun x => (md_moment_id x =? id)%Z) (moment_media db) ->
  filter (fun mt => (mt_moment_id mt =? id)%Z) (moments_tags db')
  = filter (fun mt => (mt_moment_id mt =? id)%Z) (moments_tags db) ->
  tags db' = tags db ->
  get db' id = get db id.
Proof.
  intros Hm Hd Ht Hg.
  assert (Htags : forall t,
             filter (fun mt => (t_id t =? mt_tag_id mt)%Z && (mt_moment_id mt =? id)%Z)
                    (moments_tags db')
             = filter (fun mt => (t_id t =? mt_tag_id mt)%Z && (mt_moment_id mt =? id)%Z)
                      (moments_tags db)).
  { intros t.
    rewrite <- (filter_filter_weaker
                  (fun mt => (t_id t =? mt_tag_id mt)%Z && (mt_moment_id mt =? id)%Z)
                  (fun mt => (mt_moment_id mt =? id)%Z) (moments_tags db'))
      by (intros x Hx; now apply andb_true_iff in Hx).
    rewrite Ht. apply filter_filter_weaker.
    intros x Hx. now apply andb_true_iff in Hx. }
  destruct (filter (fun m => (m_id m =? id)%Z) (moments db)) as [|m r] eqn:F.
  - unfold get, select_moment. rewrite Hm, F. now destruct (int4 id).
  - assert (Hid : m_id m = id).
    { assert (Hin : In m (filter (fun m => (m_id m =? id)%Z) (moments db)))
        by (rewrite F; now left).
      apply filter_In in Hin as [_ Hin]. now apply Z.eqb_eq in Hin. }
    rewrite (get_unfold db' id m r Hm), (get_unfold db id m r F).
    rewrite Hid, Hd, Hg. do 2 f_equal.
    apply flat_map_ext. intros t. now rewrite Htags.
Qed.

(** What [remove] leaves of the tables of an existing moment. *)
Lemma remove_effect db id :
  Spec.moment_exists db id ->
  users (fst (remove db id)) = users db
  /\ moments (fst (remove db id))
     = filter (fun m => negb (m_id m =? id)%Z) (moments db)
  /\ moment_media (fst (remove db id))
     = filter (fun r => negb (md_moment_id r =? id)%Z) (moment_media db)
  /\ tags (fst (remove db id)) = tags db
  /\ moments_tags (fst (remove db id))
     = filter (fun mt => negb (mt_moment_id mt =? id)%Z) (moments_tags db).
Proof.
  intros H. destruct (rows_with_id_some db id H) as (m & r & E & _).
  unfold remove, delete_moment.
  rewrite (moment_exists_int4 db id H), E. cbn [fst].
  unfold moments, moment_media, tags.
  cbn [users moments_entries moment_media_entries tags_entries moments_tags].
  repeat split; apply filter_comm.
Qed.

Lemma filter_id_patched data id ms :
  filter (fun m => (m_id m =? id)%Z)
         (map (fun m => if (m_id m =? id)%Z then Spec.patched data m else m) ms)
  = map (Spec.patched data) (filter (fun m => (m_id m =? id)%Z) ms).
Proof.
  induction ms as [|m ms IH]; cbn; [reflexivity|].
  destruct (m_id m =? id)%Z eqn:E; cbn; rewrite ?E, IH; reflexivity.
Qed.

End ComposeFacts.

(** X7.  After [Moment.remove] of an existing moment, [Moment.get] of
    its id and a second [Moment.remove] throw [NotFoundError], and
    [Moment.get] of every other id answers as before. *)
Theorem remove_then_get db id :
  Spec.moment_exists db id ->
  Moment.get (fst (Moment.remove db id)) id
  = Throw (NotFoundError ("No moment: " ++ show_Z id))
  /\ snd (Moment.remove (fst (Moment.remove db id)) id)
     = Throw (NotFoundError ("No moment: " ++ show_Z id))
  /\ (forall id', id' <> id ->
        Moment.get (fst (Moment.remove db id)) id' = Moment.get db id').
Proof.
  intros H. pose proof (moment_exists_int4 db id H) as Hr.
  destruct (remove_effect db id H) as (_ & Hms & Hmd & Hts & Hmt).
  assert (Hgone : ~ Spec.moment_exists (fst (Moment.remove db id)) id).
  { intros (m & Hin & Hid). rewrite Hms in Hin.
    apply filter_In in Hin as [_ Hk].
    apply negb_true_iff, Z.eqb_neq in Hk. contradiction. }
  split; [now apply get_missing|].
  split; [now rewrite (remove_missing _ id Hr Hgone)|].
  intros id' Hne. apply get_depends_on; rewrite ?Hms, ?Hmd, ?Hmt, ?Hts;
    try reflexivity;
    apply filter_filter_weaker; intros x Hx; apply Z.eqb_eq in Hx;
    apply negb_true_iff, Z.eqb_neq; congruence.
Qed.

(** Without the picnic, the storm is still read as before. *)
Lemma remove_then_get_witness :
  Spec.moment_exists Usage.scrapbook 1
  /\ Moment.get (fst (Moment.remove Usage.scrapbook 1)) 1
     = Throw (NotFoundError "No moment: 1")
  /\ Moment.get (fst (Moment.remove Usage.scrapbook 1)) 2
     = Moment.get Usage.scrapbook 2.
Proof.
  assert (H : Spec.moment_exists Usage.scrapbook 1).
  { exists Sample.picnic. split; [left; reflexivity | reflexivity]. }
  destruct (remove_then_get Usage.scrapbook 1 H) as (G & _ & K).
  refine (conj H (conj G (K 2%Z _))). discriminate.
Defined.

(** X8.  After a [Moment.update] that returned a row, [Moment.get] of
    the same id returns that row, with the media and tags it had
    before. *)
Theorem update_then_get db id data m' :
  Spec.supplied data = true ->
  snd (Moment.update db id data) = Return m' ->
  exists d,
    Moment.get (fst (Moment.update db id data)) id = Return d
    /\ Moment.g_moment d = m'
    /\ (forall d0, Moment.get db id = Return d0 ->
                   Moment.g_media d = Moment.g_media d0
                   /\ Moment.g_tags d = Moment.g_tags d0).
Proof.
  intros Hs R.
  destruct (int4 id) eqn:Hr;
    [|rewrite (update_out_of_range db id data Hs Hr) in R; discriminate R].
  rewrite (update_supplied db id data Hs Hr) in *. cbn [fst snd] in *.
  destruct (filter (fun m => (m_id m =? id)%Z) (moments db)) as [|m r] eqn:F;
    [discriminate R|].
  cbn [map] in R. injection R as <-.
  assert (F' : filter (fun m => (m_id m =? id)%Z)
                 (moments
                    (set_moments db
                       (map (fun m => if (m_id m =? id)%Z
                                      then Spec.patched data m else m)
                            (moments_entries db))))
               = Spec.patched data m :: map (Spec.patched data) r).
  { rewrite (moments_set_moments db
               (fun m => if (m_id m =? id)%Z then Spec.patched data m else m))
      by (intros x; now destruct (m_id x =? id)%Z).
    now rewrite filter_id_patched, F. }
  rewrite (get_unfold _ id _ _ F').
  eexists. split; [reflexivity|].
  cbn [Moment.g_moment Moment.g_media Moment.g_tags].
  split; [reflexivity|].
  intros d0 G. rewrite (get_unfold db id m r F) in G. injection G as <-.
  cbn [Moment.g_media Moment.g_tags]. split; reflexivity.
Qed.

(** The new title is read back. *)
Lemma update_then_get_witness :
  Spec.supplied Sample.retitle = true
  /\ exists m' d,
       snd (Moment.update Usage.scrapbook 1 Sample.retitle) = Return m'
       /\ Moment.get (fst (Moment.update Usage.scrapbook 1 Sample.retitle)) 1 = Return d
       /\ Moment.g_moment d = m'
       /\ m_title m' = "Picnic by the lake".
Proof.
  assert (H : Spec.supplied Sample.retitle = true) by reflexivity.
  split; [exact H|].
  destruct (update_then_get Usage.scrapbook 1 Sample.retitle _ H eq_refl)
    as (d & G & E & _).
  eexists. exists d. split; [reflexivity|]. split; [exact G|].
  split; [exact E | reflexivity].
Defined.

Section TagFacts.
Import Moment.

Lemma filter_flat_map {A B} (p : B -> bool) (g : A -> list B) l :
  filter p (flat_map g l) = flat_map (fun x => filter p (g x)) l.
Proof.
  induction l as [|a l IH]; cbn; [reflexivity|].
  now rewrite filter_app, IH.
Qed.

Lemma filter_const {A B} (p : B -> bool) (b : B) (l : list A) :
  filter p (map (fun _ => b) l) = if p b then map (fun _ => b) l else [].
Proof.
  induction l as [|a l IH]; cbn; [now destruct (p b)|].
  rewrite IH. now destruct (p b).
Qed.

Lemma tag_exists_int4 db tagId : Usage.tag_exists db tagId -> int4 tagId = true.
Proof. intros (t & Ht & <-). exact (tag_row_int4 db t Ht). Qed.

(** What [applyTag] leaves behind when it inserts. *)
Lemma applyTag_effect db momentId tagId :
  Spec.moment_exists db momentId ->
  Usage.tag_exists db tagId ->
  ~ Spec.tagged db momentId tagId ->
  snd (applyTag db momentId tagId)
  = Return (Some {| mt_moment_id := momentId; mt_tag_id := tagId |})
  /\ users (fst (applyTag db momentId tagId)) = users db
  /\ moments_entries (fst (applyTag db momentId tagId)) = moments_entries db
  /\ moment_media_entries (fst (applyTag db momentId tagId))
     = moment_media_entries db
  /\ tags_entries (fst (applyTag db momentId tagId)) = tags_entries db
  /\ moments_tags (fst (applyTag db momentId tagId))
     = (moments_tags db
        ++ [{| mt_moment_id := momentId; mt_tag_id := tagId |}])%list.
Proof.
  intros Hm Ht Hno.
  pose proof (moment_exists_int4 db momentId Hm) as Rm.
  pose proof (tag_exists_int4 db tagId Ht) as Rt.
  destruct Hm as (m & Hm & Hid). destruct Ht as (t & Ht & Htid).
  unfold applyTag, insert_moment_tag.
  assert (E1 : existsb (fun m => (m_id m =? momentId)%Z) (moments db) = true).
  { apply existsb_exists. exists m. split; [exact Hm | now apply Z.eqb_eq]. }
  assert (E2 : existsb (fun t => (t_id t =? tagId)%Z) (tags db) = true).
  { apply existsb_exists. exists t. split; [exact Ht | now apply Z.eqb_eq]. }
  assert (E3 : existsb (fun mt => (mt_moment_id mt =? momentId)%Z
                                  && (mt_tag_id mt =? tagId)%Z)
                       (moments_tags db) = false).
  { destruct (existsb _ (moments_tags db)) eqn:E; [|reflexivity].
    exfalso. apply Hno. apply existsb_exists in E as (mt & Hmt & Hk).
    apply andb_true_iff in Hk as [H1 H2]. apply Z.eqb_eq in H1, H2.
    now exists mt. }
  rewrite Rm, Rt, E1, E2, E3. cbn [andb negb fst snd hd_error].
  repeat split.
Qed.

(** What [removeMedia] and [removeTag] leave of the tables, and what
    they answer to an id that is not a value of the column. *)
Lemma removeMedia_tables db id :
  int4 id = true ->
  moments (fst (removeMedia db id)) = moments db
  /\ moment_media (fst (removeMedia db id))
     = filter (fun r => negb (md_id r =? id)%Z) (moment_media db)
  /\ tags (fst (removeMedia db id)) = tags db
  /\ moments_tags (fst (removeMedia db id)) = moments_tags db.
Proof.
  intros Hr. unfold removeMedia, delete_media. rewrite Hr. cbn [fst].
  unfold moments, moment_media, tags.
  cbn [moments_entries moment_media_entries tags_entries moments_tags].
  repeat split. apply filter_comm.
Qed.

Lemma removeMedia_rejected db id :
  int4 id = false -> removeMedia db id = (db, out_of_range).
Proof. intros Hr. unfold removeMedia, delete_media. now rewrite Hr. Qed.

Lemma removeTag_tables db momentId tagId :
  int4 momentId = true ->
  int4 tagId = true ->
  moments (fst (removeTag db momentId tagId)) = moments db
  /\ moment_media (fst (removeTag db momentId tagId)) = moment_media db
  /\ tags (fst (removeTag db momentId tagId)) = tags db
  /\ moments_tags (fst (removeTag db momentId tagId))
     = filter (fun mt => negb ((mt_moment_id mt =? momentId)%Z
                               && (mt_tag_id mt =? tagId)%Z))
              (moments_tags db).
Proof.
  intros Hm Ht. unfold removeTag, delete_moment_tag. rewrite Hm, Ht.
  cbn [andb fst]. repeat split.
Qed.

Lemma removeTag_rejected db momentId tagId :
  int4 momentId && int4 tagId = false ->
  removeTag db momentId tagId = (db, out_of_range).
Proof. intros Hr. unfold removeTag, delete_moment_tag. now rewrite Hr. Qed.

End TagFacts.

(** X9.  After [Moment.removeMedia], what [Moment.get] returned for a
    moment is returned again without the media item of the removed id:
    the moment, its other media and its tags are the same. *)
Theorem removeMedia_then_get db momentMediaId id d :
  Moment.get db id = Return d ->
  Moment.get (fst (Moment.removeMedia db momentMediaId)) id
  = Return {| Moment.g_moment := Moment.g_moment d;
              Moment.g_media :=
                filter (fun mi => negb (mi_id mi =? momentMediaId)%Z)
                       (Moment.g_media d);
              Moment.g_tags := Moment.g_tags d |}.
Proof.
  intros G. destruct (get_inv db id d G) as (m & r & F & _ & _).
  rewrite (get_unfold db id m r F) in G. injection G as <-.
  cbn [Moment.g_moment Moment.g_media Moment.g_tags].
  destruct (int4 momentMediaId) eqn:Hr.
  - destruct (removeMedia_tables db momentMediaId Hr) as (Hms & Hmd & Hts & Hmt).
    rewrite (get_unfold (fst (Moment.removeMedia db momentMediaId)) id m r)
      by (rewrite Hms; exact F).
    rewrite Hmd, Hts, Hmt. do 2 f_equal.
    rewrite filter_map_comm. f_equal. apply filter_comm.
  - rewrite (removeMedia_rejected db momentMediaId Hr). cbn [fst].
    rewrite (get_unfold db id m r F). do 2 f_equal.
    rewrite filter_map_comm. f_equal. symmetry. apply filter_all.
    intros x Hx. apply filter_In in Hx as [Hx _].
    apply media_row_int4 in Hx. cbn [Usage.item_of mi_id].
    apply negb_true_iff, Z.eqb_neq. intros E. congruence.
Qed.

(** Of the two media of the picnic the second is left. *)
Lemma removeMedia_then_get_witness :
  exists d,
    Moment.get Usage.scrapbook 1 = Return d
    /\ map mi_id (Moment.g_media d) = [1; 2]%Z
    /\ exists d',
         Moment.get (fst (Moment.removeMedia Usage.scrapbook 1)) 1 = Return d'
         /\ map mi_id (Moment.g_media d') = [2]%Z
         /\ Moment.g_tags d' = Moment.g_tags d.
Proof.
  eexists. split; [reflexivity|]. split; [reflexivity|].
  eexists. split.
  - exact (removeMedia_then_get Usage.scrapbook 1 1 _ eq_refl).
  - split; reflexivity.
Defined.

(** X10.  After [Moment.removeTag] of a moment and a tag, [Moment.get]
    of that moment returns what it returned before without the tags of
    that tag id, and [Moment.get] of every other moment answers as
    before. *)
Theorem removeTag_then_get db momentId tagId d :
  Moment.get db momentId = Return d ->
  Moment.get (fst (Moment.removeTag db momentId tagId)) momentId
  = Return {| Moment.g_moment := Moment.g_moment d;
              Moment.g_media := Moment.g_media d;
              Moment.g_tags :=
                filter (fun t => negb (t_id t =? tagId)%Z) (Moment.g_tags d) |}
  /\ (forall id', id' <> momentId ->
        Moment.get (fst (Moment.removeTag db momentId tagId)) id'
        = Moment.get db id').
Proof.
  intros G.
  destruct (get_inv db momentId d G) as (m & r & F & Hm & Hid).
  assert (Rm : int4 momentId = true)
    by (rewrite <- Hid; exact (moment_row_int4 db m Hm)).
  rewrite (get_unfold db momentId m r F) in G. injection G as <-.
  cbn [Moment.g_moment Moment.g_media Moment.g_tags]. rewrite Hid.
  destruct (int4 tagId) eqn:Rt.
  - destruct (removeTag_tables db momentId tagId Rm Rt) as (Hms & Hmd & Hts & Hmt).
    split.
    + rewrite (get_unfold (fst (Moment.removeTag db momentId tagId)) momentId m r)
        by (rewrite Hms; exact F).
      rewrite Hmd, Hts, Hmt, Hid. do 2 f_equal.
      rewrite filter_flat_map. apply flat_map_ext. intros t.
      rewrite filter_const.
      destruct (t_id t =? tagId)%Z eqn:E; cbn [negb].
      * apply Z.eqb_eq in E. rewrite filter_comm. rewrite filter_none; [reflexivity|].
        intros mt Hmt'. apply filter_In in Hmt' as [_ Hk].
        apply andb_true_iff in Hk as [H1 H2]. apply Z.eqb_eq in H1, H2.
        apply negb_false_iff, andb_true_iff. split; apply Z.eqb_eq; congruence.
      * f_equal. apply filter_filter_weaker. intros mt Hk.
        apply andb_true_iff in Hk as [H1 _]. apply Z.eqb_eq in H1.
        apply Z.eqb_neq in E.
        apply negb_true_iff, andb_false_iff. right. apply Z.eqb_neq. congruence.
    + intros id' Hne. apply get_depends_on; rewrite ?Hms, ?Hmd, ?Hts, ?Hmt;
        try reflexivity.
      apply filter_filter_weaker. intros mt Hk. apply Z.eqb_eq in Hk.
      apply negb_true_iff, andb_false_iff. left. apply Z.eqb_neq. congruence.
  - rewrite (removeTag_rejected db momentId tagId)
      by (rewrite Rm, Rt; reflexivity).
    cbn [fst]. split; [|reflexivity].
    rewrite (get_unfold db momentId m r F), Hid. do 2 f_equal.
    symmetry. apply filter_all. intros t Ht.
    apply joined_tags_of_id_in in Ht as [Ht _]. apply tag_row_int4 in Ht.
    apply negb_true_iff, Z.eqb_neq. intros E. congruence.
Qed.

(** Of the two tags of the picnic the first is left. *)
Lemma removeTag_then_get_witness :
  exists d,
    Moment.get Usage.scrapbook 1 = Return d
    /\ map t_id (Moment.g_tags d) = [1; 2]%Z
    /\ exists d',
         Moment.get (fst (Moment.removeTag Usage.scrapbook 1 2)) 1 = Return d'
         /\ map t_id (Moment.g_tags d') = [1]%Z.
Proof.
  eexists. split; [reflexivity|]. split; [reflexivity|].
  eexists. split.
  - exact (proj1 (removeTag_then_get Usage.scrapbook 1 2 _ eq_refl)).
  - reflexivity.
Defined.

(** X11.  For an existing moment and an existing tag that are not linked
    yet, [Moment.applyTag] returns the pair, and afterwards [Moment.get]
    of the moment returns the same moment and media with the tag added
    to its tags. *)
Theorem applyTag_then_get db momentId tagId :
  Spec.moment_exists db momentId ->
  Usage.tag_exists db tagId ->
  ~ Spec.tagged db momentId tagId ->
  snd (Moment.applyTag db momentId tagId)
  = Return (Some {| mt_moment_id := momentId; mt_tag_id := tagId |})
  /\ exists d d',
       Moment.get db momentId = Return d
       /\ Moment.get (fst (Moment.applyTag db momentId tagId)) momentId = Return d'
       /\ Moment.g_moment d' = Moment.g_moment d
       /\ Moment.g_media d' = Moment.g_media d
       /\ (forall t, In t (Moment.g_tags d')
                     <-> In t (Moment.g_tags d)
                         \/ (In t (tags db) /\ t_id t = tagId)).
Proof.
  intros Hm Ht Hno.
  destruct (applyTag_effect db momentId tagId Hm Ht Hno)
    as (Hret & _ & Hms & Hmd & Hts & Hmt).
  split; [exact Hret|].
  destruct (rows_with_id_some db momentId Hm) as (m & r & F & _ & Hid).
  assert (Vms : moments (fst (Moment.applyTag db momentId tagId)) = moments db)
    by (unfold moments; now rewrite Hms).
  assert (Vmd : moment_media (fst (Moment.applyTag db momentId tagId))
                = moment_media db)
    by (unfold moment_media; now rewrite Hmd).
  assert (Vts : tags (fst (Moment.applyTag db momentId tagId)) = tags db)
    by (unfold tags; now rewrite Hts).
  eexists. eexists.
  split; [exact (get_unfold db momentId m r F)|].
  split; [refine (get_unfold _ momentId m r _); rewrite Vms; exact F|].
  cbn [Moment.g_moment Moment.g_media Moment.g_tags].
  rewrite Vmd, Vts, Hmt.
  split; [reflexivity|]. split; [reflexivity|].
  intros t. rewrite Hid.
  rewrite (joined_tags_of_id_in db momentId t).
  rewrite !in_flat_map. split.
  - intros (t' & Ht' & Hin). apply in_map_iff in Hin as (mt & <- & Hmt').
    apply filter_In in Hmt' as [Hmt' Hk].
    apply andb_true_iff in Hk as [H1 H2]. apply Z.eqb_eq in H1, H2.
    apply in_app_iff in Hmt' as [Hmt'|[<-|[]]].
    + left. split; [exact Ht'|]. exists mt. auto.
    + right. split; [exact Ht' | exact H1].
  - intros [(Ht' & mt & Hmt' & H1 & H2)|(Ht' & Hk)].
    + exists t. split; [exact Ht'|]. apply in_map_iff. exists mt.
      split; [reflexivity|]. apply filter_In. split.
      * apply in_app_iff. now left.
      * apply andb_true_iff. split; apply Z.eqb_eq; congruence.
    + exists t. split; [exact Ht'|]. apply in_map_iff.
      exists {| mt_moment_id := momentId; mt_tag_id := tagId |}.
      split; [reflexivity|]. apply filter_In. split.
      * apply in_app_iff. right. now left.
      * cbn. apply andb_true_iff. split; apply Z.eqb_eq; congruence.
Qed.

(** The storm gets the family tag. *)
Lemma applyTag_then_get_witness :
  (Spec.moment_exists Usage.scrapbook 2
   /\ Usage.tag_exists Usage.scrapbook 3
   /\ ~ Spec.tagged Usage.scrapbook 2 3)
  /\ snd (Moment.applyTag Usage.scrapbook 2 3)
     = Return (Some {| mt_moment_id := 2; mt_tag_id := 3 |}).
Proof.
  assert (H1 : Spec.moment_exists Usage.scrapbook 2).
  { exists Sample.storm. split; [right; left; reflexivity | reflexivity]. }
  assert (H2 : Usage.tag_exists Usage.scrapbook 3).
  { exists {| t_id := 3; t_name := "family" |}.
    split; [right; right; left; reflexivity | reflexivity]. }
  assert (H3 : ~ Spec.tagged Usage.scrapbook 2 3).
  { intros (mt & Hin & E1 & E2). cbn in Hin.
    destruct Hin as [<-|[<-|[<-|[]]]]; discriminate E1 || discriminate E2. }
  refine (conj (conj H1 (conj H2 H3)) _).
  exact (proj1 (applyTag_then_get Usage.scrapbook 2 3 H1 H2 H3)).
Defined.

(** X12.  For an existing moment and an existing tag that are not linked
    yet, [Moment.removeTag] after [Moment.applyTag] gives back the
    database as it was. *)
Theorem applyTag_then_removeTag db momentId tagId :
  Spec.moment_exists db momentId ->
  Usage.tag_exists db tagId ->
  ~ Spec.tagged db momentId tagId ->
  Moment.removeTag (fst (Moment.applyTag db momentId tagId)) momentId tagId
  = (db, Return tt).
Proof.
  intros Hm Ht Hno.
  destruct (applyTag_effect db momentId tagId Hm Ht Hno)
    as (_ & Hus & Hms & Hmd & Hts & Hmt).
  unfold Moment.removeTag, delete_moment_tag.
  rewrite (moment_exists_int4 db momentId Hm), (tag_exists_int4 db tagId Ht).
  cbn [andb]. rewrite Hus, Hms, Hmd, Hts, Hmt.
  rewrite filter_app. cbn [filter mt_moment_id mt_tag_id].
  rewrite !Z.eqb_refl. cbn [andb negb]. rewrite app_nil_r.
  rewrite filter_all.
  - now destruct db.
  - intros mt Hin. apply negb_true_iff, andb_false_iff.
    destruct (mt_moment_id mt =? momentId)%Z eqn:E1; [|now left].
    destruct (mt_tag_id mt =? tagId)%Z eqn:E2; [|now right].
    exfalso. apply Hno. apply Z.eqb_eq in E1, E2. now exists mt.
Qed.

(** Tagging the storm with family and taking the tag off again. *)
Lemma applyTag_then_removeTag_witness :
  (Spec.moment_exists Usage.scrapbook 2
   /\ Usage.tag_exists Usage.scrapbook 3
   /\ ~ Spec.tagged Usage.scrapbook 2 3)
  /\ Moment.removeTag (fst (Moment.applyTag Usage.scrapbook 2 3)) 2 3
     = (Usage.scrapbook, Return tt).
Proof.
  assert (H1 : Spec.moment_exists Usage.scrapbook 2).
  { exists Sample.storm. split; [right; left; reflexivity | reflexivity]. }
  assert (H2 : Usage.tag_exists Usage.scrapbook 3).
  { exists {| t_id := 3; t_name := "family" |}.
    split; [right; right; left; reflexivity | reflexivity]. }
  assert (H3 : ~ Spec.tagged Usage.scrapbook 2 3).
  { intros (mt & Hin & E1 & E2). cbn in Hin.
    destruct Hin as [<-|[<-|[<-|[]]]]; discriminate E1 || discriminate E2. }
  refine (conj (conj H1 (conj H2 H3)) _).
  exact (applyTag_then_removeTag Usage.scrapbook 2 3 H1 H2 H3).
Defined.

Section ChainFacts.
Import Auth.

(** What [authenticateJWT] does to a request that has no user yet. *)
Lemma authenticateJWT_fresh K verify req :
  req_user req = None ->
  (forall p, Chain.verified_as K verify req p ->
             authenticateJWT K verify req = (set_user req p, Next))
  /\ ((forall p, ~ Chain.verified_as K verify req p) ->
      authenticateJWT K verify req = (req, Next)).
Proof.
  intros Hfresh. unfold Chain.verified_as, Spec.header_of, authenticateJWT.
  destruct (req_headers req) as [[[h|]]|]; cbn [authorization].
  - destruct h as [|c h]; cbn [truthy].
    + split.
      * intros p (h' & [= <-] & Hne & _). now elim Hne.
      * reflexivity.
    + destruct (verify (trim (strip_bearer (String c h))) K) as [p|] eqn:E.
      * split.
        -- intros p' (h' & [= <-] & _ & E'). congruence.
        -- intros Hno. exfalso. apply (Hno p). exists (String c h).
           repeat split; [discriminate | exact E].
      * split; [|reflexivity].
        intros p' (h' & [= <-] & _ & E'). congruence.
  - split; [|reflexivity]. intros p (h' & H & _). discriminate H.
  - split; [|reflexivity]. intros p (h' & H & _). discriminate H.
Qed.

Lemma verified_or_not K verify req :
  (exists p, Chain.verified_as K verify req p)
  \/ (forall p, ~ Chain.verified_as K verify req p).
Proof.
  unfold Chain.verified_as.
  destruct (Spec.header_of req) as [h|]; [|right; intros p (h' & H & _); discriminate H].
  destruct h as [|c h].
  - right. intros p (h' & [= <-] & Hne & _). now elim Hne.
  - destruct (verify (trim (strip_bearer (String c h))) K) as [p|] eqn:E.
    + left. exists p, (String c h). repeat split; [discriminate | exact E].
    + right. intros p (h' & [= <-] & _ & E'). congruence.
Qed.

Lemma verified_unique K verify req p q :
  Chain.verified_as K verify req p -> Chain.verified_as K verify req q -> p = q.
Proof.
  intros (h & H1 & _ & E1) (h' & H2 & _ & E2). congruence.
Qed.

Lemma trim_start_spaces ws x :
  Chain.all_space ws = true -> trim_start (ws ++ x) = trim_start x.
Proof.
  induction ws as [|c ws IH]; cbn; [reflexivity|].
  intros H. apply andb_true_iff in H as [-> H]. auto.
Qed.

Lemma trim_start_all_space ws : Chain.all_space ws = true -> trim_start ws = "".
Proof.
  induction ws as [|c ws IH]; cbn; [reflexivity|].
  intros H. apply andb_true_iff in H as [-> H]. auto.
Qed.

Lemma trim_end_all_space ws : Chain.all_space ws = true -> trim_end ws = "".
Proof.
  induction ws as [|c ws IH]; cbn; [reflexivity|].
  intros H. apply andb_true_iff in H as [-> H]. now rewrite (IH H).
Qed.

Lemma trim_end_spaces x ws :
  Chain.all_space ws = true -> trim_end (x ++ ws) = trim_end x.
Proof.
  intros H. induction x as [|c x IH]; cbn.
  - now apply trim_end_all_space.
  - now rewrite IH.
Qed.

Lemma trim_spaces ws1 t ws2 :
  Chain.all_space ws1 = true -> Chain.all_space ws2 = true ->
  trim (ws1 ++ t ++ ws2) = trim t.
Proof.
  intros H1 H2. unfold trim. rewrite (trim_start_spaces _ _ H1).
  induction t as [|c t IH].
  - cbn [append]. now rewrite (trim_start_all_space ws2 H2).
  - cbn [append trim_start]. destruct (is_space c); [exact IH|].
    change (String c (t ++ ws2)) with (String c t ++ ws2).
    now apply trim_end_spaces.
Qed.

End ChainFacts.

(** X13.  A request without a user gets through [authenticateJWT]
    followed by [ensureLoggedIn] exactly when its token verifies to a
    payload with a non-empty username; it then carries that payload as
    [req.user], and otherwise [UnauthorizedError] is passed on. *)
Theorem logged_in_iff_verified_with_username SECRET_KEY jwt_verify req :
  Auth.req_user req = None ->
  (Chain.passes (Chain.logged_in SECRET_KEY jwt_verify req)
   <-> exists p, Chain.verified_as SECRET_KEY jwt_verify req p
                 /\ truthy_opt (Auth.username p) = true)
  /\ (forall p, Chain.verified_as SECRET_KEY jwt_verify req p ->
                truthy_opt (Auth.username p) = true ->
                Chain.logged_in SECRET_KEY jwt_verify req
                = (Auth.set_user req p, Auth.Next))
  /\ (~ Chain.passes (Chain.logged_in SECRET_KEY jwt_verify req) ->
      snd (Chain.logged_in SECRET_KEY jwt_verify req)
      = Auth.NextErr UnauthorizedError).
Proof.
  intros Hfresh.
  destruct (authenticateJWT_fresh SECRET_KEY jwt_verify req Hfresh) as [Hyes Hno].
  unfold Chain.passes, Chain.logged_in, Chain.and_then.
  destruct (verified_or_not SECRET_KEY jwt_verify req) as [(p & Hp)|Hnone].
  - rewrite (Hyes p Hp). unfold Auth.ensureLoggedIn.
    cbn [Auth.set_user Auth.req_user].
    destruct (truthy_opt (Auth.username p)) eqn:E; cbn [snd].
    + split; [|split].
      * split; [intros _; now exists p | reflexivity].
      * intros q Hq _. now rewrite (verified_unique _ _ _ _ _ Hq Hp).
      * intros H. now elim H.
    + split; [|split].
      * split; [discriminate|].
        intros (q & Hq & Eq). rewrite (verified_unique _ _ _ _ _ Hq Hp) in Eq.
        congruence.
      * intros q Hq Eq. rewrite (verified_unique _ _ _ _ _ Hq Hp) in Eq.
        congruence.
      * reflexivity.
  - rewrite (Hno Hnone). unfold Auth.ensureLoggedIn. rewrite Hfresh. cbn [snd].
    split; [|split].
    + split; [discriminate | intros (q & Hq & _); now elim (Hnone q)].
    + intros q Hq. now elim (Hnone q).
    + reflexivity.
Qed.

(** Ann's token gets her past [ensureLoggedIn]. *)
Lemma logged_in_iff_verified_with_username_witness :
  Auth.req_user (Sample.with_header "Bearer abc.def.ghi") = None
  /\ Chain.verified_as "s3cret" Sample.verify_one
       (Sample.with_header "Bearer abc.def.ghi") Sample.ann
  /\ Chain.logged_in "s3cret" Sample.verify_one
       (Sample.with_header "Bearer abc.def.ghi")
     = (Auth.set_user (Sample.with_header "Bearer abc.def.ghi") Sample.ann,
        Auth.Next).
Proof.
  assert (H : Auth.req_user (Sample.with_header "Bearer abc.def.ghi") = None)
    by reflexivity.
  assert (V : Chain.verified_as "s3cret" Sample.verify_one
                (Sample.with_header "Bearer abc.def.ghi") Sample.ann).
  { exists "Bearer abc.def.ghi". repeat split. discriminate. }
  refine (conj H (conj V _)).
  exact (proj1 (proj2 (logged_in_iff_verified_with_username
                         "s3cret" Sample.verify_one _ H))
               Sample.ann V eq_refl).
Defined.

(** X14.  On a route with a non-empty [:username], a request without a
    user gets through [authenticateJWT] followed by [ensureCorrectUser]
    exactly when its token verifies to a payload whose username is the
    route's; otherwise [UnauthorizedError] is passed on. *)
Theorem correct_user_iff_verified_as_route_user SECRET_KEY jwt_verify req u :
  Auth.req_user req = None ->
  Auth.params_username (Auth.req_params req) = Some u ->
  u <> "" ->
  (Chain.passes (Chain.correct_user SECRET_KEY jwt_verify req)
   <-> exists p, Chain.verified_as SECRET_KEY jwt_verify req p
                 /\ Auth.username p = Some u)
  /\ (~ Chain.passes (Chain.correct_user SECRET_KEY jwt_verify req) ->
      snd (Chain.correct_user SECRET_KEY jwt_verify req)
      = Auth.NextErr UnauthorizedError).
Proof.
  intros Hfresh Hparam Hne.
  destruct (authenticateJWT_fresh SECRET_KEY jwt_verify req Hfresh) as [Hyes Hno].
  assert (Ht : truthy_opt (Some u) = true) by (destruct u; [congruence | reflexivity]).
  unfold Chain.passes, Chain.correct_user, Chain.and_then.
  destruct (verified_or_not SECRET_KEY jwt_verify req) as [(p & Hp)|Hnone].
  - rewrite (Hyes p Hp). unfold Auth.ensureCorrectUser.
    cbn [Auth.set_user Auth.req_user Auth.req_params]. rewrite Hparam, Ht.
    destruct (strict_eq (Auth.username p) (Some u)) eqn:E; cbn [snd].
    + apply strict_eq_true in E. split.
      * split; [intros _; now exists p | reflexivity].
      * intros H. now elim H.
    + apply strict_eq_false in E. split; [|reflexivity].
      split; [discriminate|].
      intros (q & Hq & Eq). rewrite (verified_unique _ _ _ _ _ Hq Hp) in Eq.
      contradiction.
  - rewrite (Hno Hnone). unfold Auth.ensureCorrectUser. rewrite Hfresh. cbn [snd].
    split; [|reflexivity].
    split; [discriminate | intros (q & Hq & _); now elim (Hnone q)].
Qed.

(** Ann's token gets her to [/users/ann]. *)
Lemma correct_user_iff_verified_as_route_user_witness :
  (Auth.req_user
     {| Auth.req_headers := Some {| Auth.authorization := Some "bearer abc.def.ghi" |};
        Auth.req_user := None;
        Auth.req_params := {| Auth.params_username := Some "ann" |};
        Auth.req_body := None |} = None
   /\ "ann" <> "")
  /\ Chain.passes
       (Chain.correct_user "s3cret" Sample.verify_one
          {| Auth.req_headers := Some {| Auth.authorization := Some "bearer abc.def.ghi" |};
             Auth.req_user := None;
             Auth.req_params := {| Auth.params_username := Some "ann" |};
             Auth.req_body := None |}).
Proof.
  assert (Hne : "ann" <> "") by discriminate.
  refine (conj (conj eq_refl Hne) _).
  apply (proj1 (correct_user_iff_verified_as_route_user
                  "s3cret" Sample.verify_one
                  {| Auth.req_headers :=
                       Some {| Auth.authorization := Some "bearer abc.def.ghi" |};
                     Auth.req_user := None;
                     Auth.req_params := {| Auth.params_username := Some "ann" |};
                     Auth.req_body := None |}
                  "ann" eq_refl eq_refl Hne)).
  exists Sample.ann. split; [|reflexivity].
  exists "bearer abc.def.ghi". repeat split. discriminate.
Defined.

(** X15.  A request that [ensureCorrectUser] lets through is let through
    by [ensureLoggedIn] exactly when the username it was compared with
    is a non-empty string: a payload without a username passes the
    former, and not the latter, on a request that names no username. *)
Theorem ensureCorrectUser_then_ensureLoggedIn req :
  Chain.passes (Auth.ensureCorrectUser req) ->
  (Chain.passes (Auth.ensureLoggedIn req)
   <-> truthy_opt (Spec.username_if_truthy req) = true).
Proof.
  unfold Chain.passes, Auth.ensureCorrectUser, Auth.ensureLoggedIn,
    Spec.username_if_truthy.
  destruct (Auth.req_user req) as [user|]; [|discriminate].
  destruct (truthy_opt (Auth.params_username (Auth.req_params req))) eqn:Et.
  - destruct (strict_eq (Auth.username user) _) eqn:E; [|discriminate].
    apply strict_eq_true in E. intros _. rewrite E, Et. cbn. tauto.
  - destruct (Auth.req_body req) as [b|]; [|discriminate].
    destruct (strict_eq (Auth.username user) _) eqn:E; [|discriminate].
    apply strict_eq_true in E. intros _. rewrite E.
    destruct (truthy_opt (Auth.body_username b)); cbn; split; congruence.
Qed.

(** Ann on her own route passes both guards. *)
Lemma ensureCorrectUser_then_ensureLoggedIn_witness :
  Chain.passes (Auth.ensureCorrectUser Sample.ann_own_route)
  /\ Chain.passes (Auth.ensureLoggedIn Sample.ann_own_route).
Proof.
  assert (H : Chain.passes (Auth.ensureCorrectUser Sample.ann_own_route))
    by reflexivity.
  split; [exact H|].
  exact (proj2 (ensureCorrectUser_then_ensureLoggedIn Sample.ann_own_route H)
               eq_refl).
Defined.

(** X16.  White space between the [Bearer ] prefix and the token, and
    after the token, makes no difference to the user that
    [authenticateJWT] stores. *)
Theorem authenticateJWT_ignores_space_around_token
        SECRET_KEY jwt_verify req ws1 ws2 token :
  Chain.all_space ws1 = true ->
  Chain.all_space ws2 = true ->
  Auth.req_user
    (fst (Auth.authenticateJWT SECRET_KEY jwt_verify
            (Chain.with_authorization req ("Bearer " ++ ws1 ++ token ++ ws2))))
  = Auth.req_user
      (fst (Auth.authenticateJWT SECRET_KEY jwt_verify
              (Chain.with_authorization req ("Bearer " ++ token)))).
Proof.
  intros H1 H2. unfold Auth.authenticateJWT, Chain.with_authorization.
  cbn [Auth.req_headers Auth.authorization append truthy].
  change (String "B" (String "e" (String "a" (String "r" (String "e" (String "r"
            (String " " (ws1 ++ token ++ ws2))))))))
    with ("Bearer " ++ (ws1 ++ token ++ ws2)).
  change (String "B" (String "e" (String "a" (String "r" (String "e" (String "r"
            (String " " token)))))))
    with ("Bearer " ++ token).
  rewrite (proj1 (strip_bearer_prefix (ws1 ++ token ++ ws2))).
  rewrite (proj1 (strip_bearer_prefix token)).
  rewrite (trim_spaces ws1 token ws2 H1 H2).
  now destruct (jwt_verify (trim token) SECRET_KEY).
Qed.

(** One space before the token and two after it. *)
Lemma authenticateJWT_ignores_space_around_token_witness :
  (Chain.all_space " " = true /\ Chain.all_space "  " = true)
  /\ Auth.req_user
       (fst (Auth.authenticateJWT "s3cret" Sample.verify_one
               (Chain.with_authorization Sample.no_body
                  ("Bearer " ++ " " ++ "abc.def.ghi" ++ "  "))))
     = Auth.req_user
         (fst (Auth.authenticateJWT "s3cret" Sample.verify_one
                 (Chain.with_authorization Sample.no_body
                    ("Bearer " ++ "abc.def.ghi")))).
Proof.
  refine (conj (conj eq_refl eq_refl) _).
  exact (authenticateJWT_ignores_space_around_token
           "s3cret" Sample.verify_one Sample.no_body " " "  " "abc.def.ghi"
           eq_refl eq_refl).
Defined.

(** X17.  When the server answers with an error message, every wrapper
    of the client ([loginApi], [getUser], [signupApi], [updateUser],
    [momentCreateApi], [momentGetApi], [momentGetAllApi]) throws what
    [request] throws: the message as an array. *)
Theorem wrappers_rethrow_server_message
        BASE_URL token axios response message :
  (forall cfg, axios cfg = Api.Rejected response) ->
  Api.error_message response = Some message ->
  (forall username password,
      Api.loginApi BASE_URL token axios username password
      = Api.Thrown (Spec.as_array message))
  /\ (forall username,
         Api.getUser BASE_URL token axios username
         = Api.Thrown (Spec.as_array message))
  /\ (forall data,
         Api.signupApi BASE_URL token axios data
         = Api.Thrown (Spec.as_array message))
  /\ (forall username data,
         Api.updateUser BASE_URL token axios username data
         = Api.Thrown (Spec.as_array message))
  /\ (forall data,
         Api.momentCreateApi BASE_URL token axios data
         = Api.Thrown (Spec.as_array message))
  /\ (forall momentId,
         Api.momentGetApi BASE_URL token axios momentId
         = Api.Thrown (Spec.as_array message))
  /\ Api.momentGetAllApi BASE_URL token axios
     = Api.Thrown (Spec.as_array message).
Proof.
  intros Hrej Hmsg.
  assert (R : forall endpoint data method,
             Api.request BASE_URL token axios endpoint data method
             = Api.Thrown (Spec.as_array message)).
  { intros. unfold Api.request. now rewrite Hrej, Hmsg. }
  unfold Api.loginApi, Api.getUser, Api.signupApi, Api.updateUser,
    Api.momentCreateApi, Api.momentGetApi, Api.momentGetAllApi.
  repeat split; intros; now rewrite R.
Qed.

(** [getUser] against a server that answers 404. *)
Lemma wrappers_rethrow_server_message_witness :
  Api.getUser "http://localhost:3001" (Some "tok") Sample.axios_404 "ann"
  = Api.Thrown (Api.JArr [Api.JStr "No moment: 7"]).
Proof.
  exact (proj1 (proj2 (wrappers_rethrow_server_message
                         "http://localhost:3001" (Some "tok") Sample.axios_404
                         _ _ (fun _ => eq_refl) eq_refl))
               "ann").
Defined.
